(** * graphiti-context-hub: the backend adapters, embedded and verified

    A shallow embedding of [lib/backends/forgetful.py] and
    [lib/backends/graphiti.py].  The two backends translate a uniform
    memory API into calls to an external service and parse the service's
    answers (JSON-like Python values) into [Memory], [Relationship] and
    [KnowledgeGraph] values.

    Layout:
    - [Py]: the Python values that cross the boundary, with the dynamic
      behaviour of the operations the code applies to them ([.get],
      iteration, truthiness, [str], [==]);
    - the state-and-exception monad the methods run in;
    - [Models]: the dataclasses of [lib/models.py];
    - [ForgetfulBackend] and [GraphitiBackend]: one definition per method;
    - [Fixtures]: in-memory test doubles of the external services;
    - the theorems. *)

From Stdlib Require Import ZArith String List Ascii DecimalString DecimalNat Sorted.
From stdpp Require Import base gmap strings list.

Set Warnings "-register-all".
Local Open Scope string_scope.
Local Open Scope list_scope.
Local Open Scope Z_scope.

(** ** The Python runtime the code relies on

    [datetime] and the rendering of strings and floats by [repr]/[str]
    belong to the Python standard library, not to the repository: they
    are taken as an interface.  [wall_clock k] is the value of the
    [k]-th evaluation of [datetime.now()]; [datetime_le t1 t2] is
    [t1 <= t2]. *)

Class PyRuntime := {
  datetime : Type;
  fromisoformat : string -> option datetime;
  isoformat : datetime -> string;
  wall_clock : nat -> datetime;
  datetime_le : datetime -> datetime -> bool;
  repr_str : string -> string;
  float_str : Z -> string
}.

(** [datetime.fromisoformat] is documented as the inverse of
    [datetime.isoformat]. *)
Class PyRuntimeLaws {RT : PyRuntime} : Prop := {
  fromisoformat_isoformat : forall t, fromisoformat (isoformat t) = Some t
}.

Module Py.

(** Exceptions the modelled code can raise.  [HostError] stands for any
    failure of the external call mechanism itself. *)
Inductive exn :=
| AttributeError
| TypeError
| ValueError (msg : string)
| NameError (name : string)
| RuntimeError (msg : string)
| HostError (msg : string).

Inductive res (A : Type) :=
| Ok (a : A)
| Raise (e : exn).
Arguments Ok {A} a.
Arguments Raise {A} e.

(** Values exchanged with the services: what a JSON payload decodes to.
    A float is kept as its IEEE-754 binary64 bit pattern.  A dict is the
    list of its items in insertion order; when a key is repeated in the
    list, the first item is the dict's item for that key. *)
Inductive value :=
| VNone
| VBool (b : bool)
| VInt (n : Z)
| VFloat (bits : Z)
| VStr (s : string)
| VList (items : list value)
| VDict (entries : list (string * value)).

Definition pydict := list (string * value).

(** [d.get(key, default)] on a dict. *)
Fixpoint dict_get (d : pydict) (key : string) (default : value) : value :=
  match d with
  | [] => default
  | (k, v) :: d' => if String.eqb k key then v else dict_get d' key default
  end.

(** [key in d]. *)
Fixpoint dict_has (d : pydict) (key : string) : bool :=
  match d with
  | [] => false
  | (k, _) :: d' => if String.eqb k key then true else dict_has d' key
  end.

(** The keys of a dict, each once, in insertion order. *)
Fixpoint dict_keys_from (seen : list string) (d : pydict) : list string :=
  match d with
  | [] => []
  | (k, _) :: d' =>
      if existsb (String.eqb k) seen then dict_keys_from seen d'
      else k :: dict_keys_from (k :: seen) d'
  end.

Definition dict_keys (d : pydict) : list string := dict_keys_from [] d.

(** [x.get(key, default)] on an arbitrary object: only a dict has the
    method. *)
Definition py_get (x : value) (key : string) (default : value) : res value :=
  match x with
  | VDict d => Ok (dict_get d key default)
  | _ => Raise AttributeError
  end.

(** The characters of a string, as one-character strings. *)
Fixpoint str_chars (s : string) : list value :=
  match s with
  | EmptyString => []
  | String c s' => VStr (String c EmptyString) :: str_chars s'
  end.

(** [for x in v]: the items the loop sees, or [TypeError] when [v] is
    not iterable. *)
Definition py_iter (v : value) : res (list value) :=
  match v with
  | VList items => Ok items
  | VDict d => Ok (map VStr (dict_keys d))
  | VStr s => Ok (str_chars s)
  | VNone | VBool _ | VInt _ | VFloat _ => Raise TypeError
  end.

(** Truth value of an object, as in [x if v else y]. *)
Definition py_truthy (v : value) : bool :=
  match v with
  | VNone => false
  | VBool b => b
  | VInt n => negb (n =? 0)
  | VFloat bits => negb (Z.land bits (Z.ones 63) =? 0)
  | VStr s => negb (String.eqb s EmptyString)
  | VList items => match items with [] => false | _ => true end
  | VDict d => match d with [] => false | _ => true end
  end.

(** The double-quote character, for the string literals that contain it. *)
Definition dq : string := String (ascii_of_nat 34) EmptyString.

Definition Z_str (n : Z) : string := NilZero.string_of_int (Z.to_int n).

(** [str(v)] when [quoted] is false and [repr(v)] when it is true: they
    differ on strings only; the items of a container are shown by
    [repr]. *)
Fixpoint py_show {RT : PyRuntime} (quoted : bool) (v : value) : string :=
  match v with
  | VNone => "None"
  | VBool true => "True"
  | VBool false => "False"
  | VInt n => Z_str n
  | VFloat bits => float_str bits
  | VStr s => if quoted then repr_str s else s
  | VList items => "[" +:+ String.concat ", " (map (py_show true) items) +:+ "]"
  | VDict d =>
      "{" +:+ String.concat ", "
                (map (fun kv => repr_str (fst kv) +:+ ": " +:+ py_show true (snd kv)) d)
          +:+ "}"
  end.

Definition py_str {RT : PyRuntime} (v : value) : string := py_show false v.

(** [v == s] for a [str] object [s]: only an equal string is equal. *)
Definition py_eq_str (v : value) (s : string) : bool :=
  match v with
  | VStr s' => String.eqb s' s
  | _ => false
  end.

(** Structural equality of values.  On two strings, the only case the
    code reaches (memory ids are built with [str]), it is Python's
    [==]. *)
Fixpoint value_eqb (a b : value) {struct a} : bool :=
  match a, b with
  | VNone, VNone => true
  | VBool x, VBool y => Bool.eqb x y
  | VInt x, VInt y => x =? y
  | VFloat x, VFloat y => x =? y
  | VStr x, VStr y => String.eqb x y
  | VList xs, VList ys =>
      (fix go (xs : list value) (ys : list value) {struct xs} : bool :=
         match xs, ys with
         | [], [] => true
         | x :: xs', y :: ys' => value_eqb x y && go xs' ys'
         | _, _ => false
         end) xs ys
  | VDict xs, VDict ys =>
      (fix go (xs : list (string * value)) (ys : list (string * value)) {struct xs} : bool :=
         match xs, ys with
         | [], [] => true
         | (k, x) :: xs', (k', y) :: ys' => String.eqb k k' && value_eqb x y && go xs' ys'
         | _, _ => false
         end) xs ys
  | _, _ => false
  end.

(** The items of [result.get(key, [])], as a [for] loop sees them. *)
Definition items_of (result : value) (key : string) : res (list value) :=
  match py_get result key (VList []) with
  | Ok v => py_iter v
  | Raise e => Raise e
  end.

(** A record that has no [created_at] field. *)
Definition no_created_at (d : pydict) : Prop := dict_has d "created_at" = false.

End Py.
Export Py.

(** ** State and exceptions

    A method runs against a mutable state (the backend object, the
    external service, the clock) and either returns or raises.  What was
    written to the state before an exception stays written. *)

Definition M (S A : Type) : Type := S -> res A * S.

Definition ret {S A} (a : A) : M S A := fun st => (Ok a, st).

Definition raise {S A} (e : exn) : M S A := fun st => (Raise e, st).

Definition bind {S A B} (m : M S A) (k : A -> M S B) : M S B :=
  fun st =>
    match m st with
    | (Ok a, st') => k a st'
    | (Raise e, st') => (Raise e, st')
    end.

(** A computation that touches no state. *)
Definition lift {S A} (r : res A) : M S A := fun st => (r, st).

Notation "'let*' x ':=' m 'in' k" := (bind m (fun x => k))
  (at level 10, x name, m at level 200, k at level 200, only parsing).

(** A [for] loop that builds a list, one item per iteration. *)
Fixpoint for_each {S A B} (f : A -> M S B) (items : list A) : M S (list B) :=
  match items with
  | [] => ret []
  | x :: rest =>
      let* y := f x in
      let* ys := for_each f rest in
      ret (y :: ys)
  end.

(** [datetime.fromisoformat(v)]: [TypeError] unless [v] is a string,
    [ValueError] when the string is not an ISO timestamp. *)
Definition py_fromisoformat {RT : PyRuntime} (v : value) : res datetime :=
  match v with
  | VStr s =>
      match fromisoformat s with
      | Some t => Ok t
      | None => Raise (ValueError ("Invalid isoformat string: " +:+ repr_str s))
      end
  | _ => Raise TypeError
  end.

(** ** lib/models.py

    The dataclasses store what they are given; a field holds whatever
    object the caller passed. *)

Module Models.
Section Models.
Context {RT : PyRuntime}.

Record Memory := {
  id : value;
  content : value;
  created_at : datetime;
  importance : value;
  metadata : pydict
}.

Record Relationship := {
  source : value;
  target : value;
  relation_type : value;
  rel_metadata : pydict
}.

Record KnowledgeGraph := {
  nodes : list Memory;
  edges : list Relationship
}.

Record OperationInfo := {
  name : string;
  description : string;
  params : list (string * string);
  example : string
}.

(** [record_memory item m]: the memory [m] was made from the record
    [item], a dict; when the record has a [created_at], the timestamp of
    the memory is the one parsed from it. *)
Definition record_memory (item : value) (m : Memory) : Prop :=
  exists d, item = VDict d /\
    (dict_has d "created_at" = true ->
     py_fromisoformat (dict_get d "created_at" VNone) = Ok (created_at m)).

End Models.
End Models.
Export Models.

(** ** lib/backends/forgetful.py *)

(** The host function [mcp__forgetful__execute_forgetful_tool(tool, args)]
    and the state of the service behind it.  A call returns a value or
    fails, and may change the service. *)
Class ForgetfulHost := {
  World : Type;
  execute_forgetful_tool : string -> value -> World -> res value * World;
  discover_forgetful_tools : World -> res value * World
}.

Module ForgetfulBackend.
Section ForgetfulBackend.
Context {RT : PyRuntime} {Host : ForgetfulHost}.

(** The backend object ([_project_cache]) together with what it acts
    on: the service, the clock ([ticks] counts the readings taken so
    far) and, for the statements about external calls, the list of the
    calls made so far, oldest first. *)
Record State := {
  _project_cache : gmap string value;
  world : World;
  ticks : nat;
  calls : list (string * value)
}.

(** [__init__] *)
Definition init (w : World) : State :=
  {| _project_cache := ∅; world := w; ticks := 0%nat; calls := [] |}.

Definition invoke (tool : string) (args : pydict) : M State value :=
  fun st =>
    let (r, w) := execute_forgetful_tool tool (VDict args) (world st) in
    (r, {| _project_cache := _project_cache st; world := w;
           ticks := ticks st; calls := calls st ++ [(tool, VDict args)] |}).

(** The state after one more reading of the clock. *)
Definition tick (st : State) : State :=
  {| _project_cache := _project_cache st; world := world st;
     ticks := S (ticks st); calls := calls st |}.

(** [datetime.now()] *)
Definition now : M State datetime :=
  fun st => (Ok (wall_clock (ticks st)), tick st).

Definition cache_store (group_id : string) (project_id : value) : M State unit :=
  fun st =>
    (Ok tt,
     {| _project_cache := <[group_id := project_id]> (_project_cache st);
        world := world st; ticks := ticks st; calls := calls st |}).

(** The loop of [_group_to_project_id] over the listed projects: the id
    of the first project named [group_id], if there is one. *)
Fixpoint find_project (group_id : string) (projects : list value) : res (option value) :=
  match projects with
  | [] => Ok None
  | project :: rest =>
      match py_get project "name" VNone with
      | Raise e => Raise e
      | Ok name =>
          if py_eq_str name group_id then
            match py_get project "id" VNone with
            | Raise e => Raise e
            | Ok project_id => Ok (Some project_id)
            end
          else find_project group_id rest
      end
  end.

Definition _group_to_project_id (group_id : string) : M State value :=
  fun st =>
    match _project_cache st !! group_id with
    | Some project_id => ret project_id st
    | None =>
        (let* result := invoke "list_projects" [] in
         let* projects := lift (py_get result "projects" (VList [])) in
         let* items := lift (py_iter projects) in
         let* found := lift (find_project group_id items) in
         match found with
         | Some project_id =>
             let* _ := cache_store group_id project_id in
             ret project_id
         | None =>
             let* create_result :=
               invoke "create_project"
                 [("name", VStr group_id);
                  ("description", VStr ("Auto-created from group_id: " +:+ group_id))] in
             let* fallback := lift (py_get create_result "id" VNone) in
             let* project_id := lift (py_get create_result "project_id" fallback) in
             let* _ := cache_store group_id project_id in
             ret project_id
         end) st
    end.

(** The body of the loop of [_parse_forgetful_memories].  The default of
    [created_at] is evaluated whether the field is present or not, so
    the clock is read once per record. *)
Definition parse_memory (mem : value) : M State Memory :=
  let* id_ := lift (py_get mem "id" (VStr EmptyString)) in
  let* content_ := lift (py_get mem "content" (VStr EmptyString)) in
  let* t := now in
  let* created := lift (py_get mem "created_at" (VStr (isoformat t))) in
  let* created_at_ := lift (py_fromisoformat created) in
  let* importance_ := lift (py_get mem "importance" VNone) in
  let* title := lift (py_get mem "title" (VStr EmptyString)) in
  let* keywords := lift (py_get mem "keywords" (VList [])) in
  let* tags := lift (py_get mem "tags" (VList [])) in
  let* linked := lift (py_get mem "linked_memory_ids" (VList [])) in
  ret {| id := VStr (py_str id_);
         content := content_;
         created_at := created_at_;
         importance := importance_;
         metadata := [("title", title); ("keywords", keywords); ("tags", tags);
                      ("linked_memory_ids", linked)] |}.

Definition _parse_forgetful_memories (result : value) : M State (list Memory) :=
  let* memories := lift (py_get result "memories" (VList [])) in
  let* items := lift (py_iter memories) in
  for_each parse_memory items.

(** [[project_id] if project_id else default] *)
Definition project_ids_arg (project_id default : value) : value :=
  if py_truthy project_id then VList [project_id] else default.

(** The arguments [query] passes to [query_memory]. *)
Definition query_memory_args (query_text : string) (project_id : value) (limit : Z)
  : pydict :=
  [("query", VStr query_text);
   ("project_ids", project_ids_arg project_id VNone);
   ("k", VInt limit);
   ("include_links", VBool true)].

Definition query (query_text : string) (group_id : string) (limit : Z)
  : M State (list Memory) :=
  let* project_id := _group_to_project_id group_id in
  let* result := invoke "query_memory" (query_memory_args query_text project_id limit) in
  _parse_forgetful_memories result.

Definition linked_to (memory : Memory) (linked_id : value) : Relationship :=
  {| source := id memory;
     target := VStr (py_str linked_id);
     relation_type := VStr "linked_to";
     rel_metadata := [] |}.

(** The two nested loops of [search_facts]. *)
Fixpoint facts_of (memories : list Memory) : res (list Relationship) :=
  match memories with
  | [] => Ok []
  | memory :: rest =>
      match py_iter (dict_get (metadata memory) "linked_memory_ids" (VList [])) with
      | Raise e => Raise e
      | Ok linked_ids =>
          match facts_of rest with
          | Raise e => Raise e
          | Ok relationships => Ok (map (linked_to memory) linked_ids ++ relationships)
          end
      end
  end.

Definition search_facts (query_text : string) (group_id : string) (limit : Z)
  : M State (list Relationship) :=
  let* memories := query query_text group_id limit in
  lift (facts_of memories).

(** The arguments [save] passes to [create_memory]; [kwargs] is the
    [**metadata] of the call. *)
Definition create_memory_args (content_ : string) (kwargs : pydict) (project_id : value)
  : pydict :=
  [("title", dict_get kwargs "title" (VStr "Untitled"));
   ("content", VStr content_);
   ("importance", dict_get kwargs "importance" (VInt 5));
   ("project_ids", project_ids_arg project_id (VList []));
   ("keywords", dict_get kwargs "keywords" (VList []));
   ("tags", dict_get kwargs "tags" (VList []));
   ("context", dict_get kwargs "context" (VStr EmptyString))].

Definition save (content_ : string) (group_id : string) (kwargs : pydict)
  : M State string :=
  let* project_id := _group_to_project_id group_id in
  let* result := invoke "create_memory" (create_memory_args content_ kwargs project_id) in
  let* fallback := lift (py_get result "id" (VStr "unknown")) in
  let* memory_id := lift (py_get result "memory_id" fallback) in
  ret (py_str memory_id).

(** *** explore *)

(** The local variables of [explore].  [visited] is the set of ids,
    kept as the list of its elements, newest first. *)
Record Frame := {
  visited : list value;
  nodes_ : list Memory;
  edges_ : list Relationship;
  queue : list (string * Z)
}.

Definition id_in (x : value) (s : list value) : bool := existsb (value_eqb x) s.

(** The innermost loop, over the ids one memory links to. *)
Fixpoint follow_links (depth current_depth : Z) (memory : Memory)
    (linked_ids : list value) (fr : Frame) : Frame :=
  match linked_ids with
  | [] => fr
  | linked_id :: rest =>
      follow_links depth current_depth memory rest
        {| visited := visited fr;
           nodes_ := nodes_ fr;
           edges_ := edges_ fr ++ [linked_to memory linked_id];
           queue := if current_depth <? depth
                    then queue fr ++ [(py_str linked_id, current_depth + 1)]
                    else queue fr |}
  end.

(** The loop over the memories one query returned. *)
Fixpoint visit_memories (depth current_depth : Z) (memories : list Memory)
    (fr : Frame) : res Frame :=
  match memories with
  | [] => Ok fr
  | memory :: rest =>
      if id_in (id memory) (visited fr) then
        visit_memories depth current_depth rest fr
      else
        match py_iter (dict_get (metadata memory) "linked_memory_ids" (VList [])) with
        | Raise e => Raise e
        | Ok linked_ids =>
            visit_memories depth current_depth rest
              (follow_links depth current_depth memory linked_ids
                 {| visited := id memory :: visited fr;
                    nodes_ := nodes_ fr ++ [memory];
                    edges_ := edges_ fr;
                    queue := queue fr |})
        end
  end.

Definition graph_of (fr : Frame) : KnowledgeGraph :=
  {| nodes := nodes_ fr; edges := edges_ fr |}.

(** The [while queue:] loop.  [fuel] bounds the number of times the
    loop test is evaluated; [None] means the bound was reached. *)
Fixpoint explore_loop (fuel : nat) (group_id : string) (depth : Z) (fr : Frame)
    (st : State) : option (res KnowledgeGraph * State) :=
  match fuel with
  | O => None
  | S fuel' =>
      match queue fr with
      | [] => Some (Ok (graph_of fr), st)
      | (query_text, current_depth) :: queue' =>
          if current_depth >? depth then Some (Ok (graph_of fr), st)
          else
            match query query_text group_id 5 st with
            | (Raise e, st') => Some (Raise e, st')
            | (Ok memories, st') =>
                match visit_memories depth current_depth memories
                        {| visited := visited fr; nodes_ := nodes_ fr;
                           edges_ := edges_ fr; queue := queue' |} with
                | Raise e => Some (Raise e, st')
                | Ok fr' => explore_loop fuel' group_id depth fr' st'
                end
            end
      end
  end.

Definition explore_start (starting_point : string) : Frame :=
  {| visited := []; nodes_ := []; edges_ := []; queue := [(starting_point, 0)] |}.

Definition explore (fuel : nat) (starting_point : string) (group_id : string)
    (depth : Z) (st : State) : option (res KnowledgeGraph * State) :=
  explore_loop fuel group_id depth (explore_start starting_point) st.

(** The arguments [list_recent] passes to [list_memories]. *)
Definition list_memories_args (project_id : value) (limit : Z) : pydict :=
  [("project_ids", project_ids_arg project_id VNone);
   ("limit", VInt limit);
   ("sort_by", VStr "created_at");
   ("sort_order", VStr "desc")].

Definition list_recent (group_id : string) (limit : Z) : M State (list Memory) :=
  let* project_id := _group_to_project_id group_id in
  let* result := invoke "list_memories" (list_memories_args project_id limit) in
  _parse_forgetful_memories result.

(** *** Discovery *)

Definition capabilities : list OperationInfo :=
  [ {| name := "query";
       description := "Search for memories by semantic similarity";
       params := [("query", "str"); ("limit", "int")];
       example := "memory.query(" +:+ dq +:+ "auth patterns" +:+ dq +:+ ", limit=10)" |};
    {| name := "save";
       description := "Save new memory";
       params := [("content", "str"); ("title", "str"); ("importance", "int (1-10)")];
       example := "memory.save(" +:+ dq +:+ "Decision: JWT auth" +:+ dq +:+ ", title="
                    +:+ dq +:+ "Auth" +:+ dq +:+ ", importance=9)" |};
    {| name := "list_recent";
       description := "List recent memories";
       params := [("limit", "int")];
       example := "memory.list_recent(limit=20)" |} ].

Definition get_capabilities : M State (list OperationInfo) :=
  fun st =>
    let (r, w) := discover_forgetful_tools (world st) in
    let st' := {| _project_cache := _project_cache st; world := w;
                  ticks := ticks st;
                  calls := calls st ++ [("discover_forgetful_tools", VNone)] |} in
    match r with
    | Raise e => (Raise e, st')
    | Ok _ => (Ok capabilities, st')
    end.

Definition get_schema (operation : string) : res value :=
  Ok (VDict [("description", VStr ("Schema for " +:+ operation)); ("params", VDict [])]).

Definition get_examples (operation : string) : res (list string) :=
  Ok ["memory." +:+ operation +:+ "(...)"].

(** *** Vocabulary for the statements about the backend *)

(** The entries one memory adds to the queue. *)
Definition enqueued (depth current_depth : Z) (linked_ids : list value)
  : list (string * Z) :=
  if current_depth <? depth
  then map (fun l => (py_str l, current_depth + 1)) linked_ids
  else [].

(** [visited] holds the ids of [nodes], newest first, each once. *)
Definition frame_ok (fr : Frame) : Prop :=
  visited fr = rev (map id (nodes_ fr)) /\ NoDup (visited fr).

(** How many more levels an entry of the queue can open. *)
Definition levels_left (depth : Z) (entry : string * Z) : nat :=
  Z.to_nat (depth + 1 - snd entry).

(** Every edge starts at a node of the graph. *)
Definition edges_from_nodes (fr : Frame) : Prop :=
  forall e, In e (edges_ fr) -> exists m, In m (nodes_ fr) /\ source e = id m.

(** [resolves gid text a links]: in every state, the query [text]
    returns exactly one memory, whose id is [a] and whose
    [linked_memory_ids] is the list [links]. *)
Definition resolves (gid text a : string) (links : list value) : Prop :=
  forall st, exists m st',
    query text gid 5 st = (Ok [m], st') /\
    id m = VStr a /\
    dict_get (metadata m) "linked_memory_ids" (VList []) = VList links.

Definition endpoints (e : Relationship) : value * value := (source e, target e).

(** How many of the calls [cs] went to [tool]. *)
Definition count_calls (tool : string) (cs : list (string * value)) : nat :=
  length (filter (fun c => String.eqb (fst c) tool) cs).

(** Newest first: no memory is older than one that comes after it. *)
Definition newest_first (memories : list Memory) : Prop :=
  StronglySorted (fun m1 m2 => datetime_le (created_at m2) (created_at m1) = true)
    memories.

(** [query] never returns more memories than the limit. *)
Definition query_bounded : Prop :=
  forall text gid limit st memories st',
    0 < limit ->
    query text gid limit st = (Ok memories, st') ->
    Z.of_nat (length memories) <= limit.

(** [list_recent] never returns more memories than the limit, and
    returns them newest first. *)
Definition list_recent_bounded_sorted : Prop :=
  forall gid limit st memories st',
    0 < limit ->
    list_recent gid limit st = (Ok memories, st') ->
    Z.of_nat (length memories) <= limit /\ newest_first memories.

End ForgetfulBackend.
End ForgetfulBackend.

(** ** lib/backends/graphiti.py *)

(** The host functions [mcp__graphiti__<tool>], looked up by name: a
    name may be unbound in the execution context ([None]). *)
Class GraphitiHost := {
  GWorld : Type;
  graphiti_tool : string -> option (value -> GWorld -> res value * GWorld)
}.

Module GraphitiBackend.
Section GraphitiBackend.
Context {RT : PyRuntime} {Host : GraphitiHost}.

Record OpSpec := {
  op_description : string;
  op_params : list (string * string);
  op_example : string
}.

(** The class attribute [OPERATIONS]. *)
Definition OPERATIONS : list (string * OpSpec) :=
  [ ("query",
     {| op_description := "Search for memories by semantic similarity";
        op_params := [("query", "str"); ("limit", "int")];
        op_example := "memory.query(" +:+ dq +:+ "auth patterns" +:+ dq +:+ ", limit=10)" |});
    ("search_facts",
     {| op_description := "Search for relationships between entities";
        op_params := [("query", "str"); ("limit", "int")];
        op_example := "memory.search_facts(" +:+ dq +:+ "authentication flow" +:+ dq
                        +:+ ", limit=20)" |});
    ("save",
     {| op_description := "Save new episode to knowledge graph";
        op_params := [("content", "str"); ("title", "str (optional)")];
        op_example := "memory.save(" +:+ dq +:+ "Decision: Using JWT for auth" +:+ dq
                        +:+ ", title=" +:+ dq +:+ "Auth Decision" +:+ dq +:+ ")" |});
    ("explore",
     {| op_description := "Deep traversal from a starting memory";
        op_params := [("starting_point", "str"); ("depth", "int")];
        op_example := "memory.explore(" +:+ dq +:+ "authentication" +:+ dq +:+ ", depth=2)" |});
    ("list_recent",
     {| op_description := "List recent memories";
        op_params := [("limit", "int")];
        op_example := "memory.list_recent(limit=20)" |}) ].

(** [OPERATIONS[operation]], [None] when the key is absent. *)
Fixpoint lookup_op (ops : list (string * OpSpec)) (operation : string) : option OpSpec :=
  match ops with
  | [] => None
  | (k, spec) :: ops' => if String.eqb k operation then Some spec else lookup_op ops' operation
  end.

(** The service, the clock and the calls made so far; the backend
    object itself has no fields. *)
Record State := {
  world : GWorld;
  ticks : nat;
  calls : list (string * value)
}.

(** The state before any call. *)
Definition start (w : GWorld) : State :=
  {| world := w; ticks := 0%nat; calls := [] |}.

(** The text of the [RuntimeError] of [_check_mcp_available]; [nl] is
    the newline character. *)
Definition nl : string := String (ascii_of_nat 10) EmptyString.

Definition unavailable_message : string :=
  "Graphiti MCP tools are not available in this execution context." +:+ nl +:+ nl
  +:+ "The memory adapter can only be used when Python code is executed "
  +:+ "by Claude Code directly (e.g., via commands or skills)." +:+ nl +:+ nl
  +:+ "If you're trying to test the adapter:" +:+ nl
  +:+ "  1. Use the /memory-list, /memory-save, or /memory-search commands" +:+ nl
  +:+ "  2. Call the bridge functions from within a Claude Code Python block" +:+ nl
  +:+ "  3. Do NOT run Python scripts via Bash subprocess" +:+ nl +:+ nl
  +:+ "For more info, see: README-lib.md".

Definition _check_mcp_available : M State unit :=
  match graphiti_tool "get_status" with
  | Some _ => ret tt
  | None => raise (RuntimeError unavailable_message)
  end.

(** The call [mcp__graphiti__<tool>(args)]: [NameError] when the name
    is unbound. *)
Definition invoke (tool : string) (args : pydict) : M State value :=
  fun st =>
    match graphiti_tool tool with
    | None => (Raise (NameError ("mcp__graphiti__" +:+ tool)), st)
    | Some f =>
        let (r, w) := f (VDict args) (world st) in
        (r, {| world := w; ticks := ticks st;
               calls := calls st ++ [(tool, VDict args)] |})
    end.

Definition tick (st : State) : State :=
  {| world := world st; ticks := S (ticks st); calls := calls st |}.

(** [datetime.now()] *)
Definition now : M State datetime :=
  fun st => (Ok (wall_clock (ticks st)), tick st).

Definition parse_node (node : value) : M State Memory :=
  let* uuid := lift (py_get node "uuid" (VStr EmptyString)) in
  let* name_ := lift (py_get node "name" (VStr EmptyString)) in
  let* t := now in
  let* created := lift (py_get node "created_at" (VStr (isoformat t))) in
  let* created_at_ := lift (py_fromisoformat created) in
  let* summary := lift (py_get node "summary" (VStr EmptyString)) in
  ret {| id := uuid;
         content := name_;
         created_at := created_at_;
         importance := VNone;
         metadata := [("summary", summary)] |}.

Definition _parse_nodes_to_memories (result : value) : M State (list Memory) :=
  let* nodes_ := lift (py_get result "nodes" (VList [])) in
  let* items := lift (py_iter nodes_) in
  for_each parse_node items.

Definition parse_fact (fact : value) : M State Relationship :=
  let* src := lift (py_get fact "source_node_uuid" (VStr EmptyString)) in
  let* tgt := lift (py_get fact "target_node_uuid" (VStr EmptyString)) in
  let* rel := lift (py_get fact "fact" (VStr EmptyString)) in
  let* created := lift (py_get fact "created_at" (VStr EmptyString)) in
  ret {| source := src;
         target := tgt;
         relation_type := rel;
         rel_metadata := [("created_at", created)] |}.

Definition _parse_facts_to_relationships (result : value) : M State (list Relationship) :=
  let* facts := lift (py_get result "facts" (VList [])) in
  let* items := lift (py_iter facts) in
  for_each parse_fact items.

Definition parse_episode (episode : value) : M State Memory :=
  let* uuid := lift (py_get episode "uuid" (VStr EmptyString)) in
  let* fallback := lift (py_get episode "name" (VStr EmptyString)) in
  let* content_ := lift (py_get episode "content" fallback) in
  let* t := now in
  let* created := lift (py_get episode "created_at" (VStr (isoformat t))) in
  let* created_at_ := lift (py_fromisoformat created) in
  let* name_ := lift (py_get episode "name" (VStr EmptyString)) in
  let* source_ := lift (py_get episode "source" (VStr EmptyString)) in
  ret {| id := uuid;
         content := content_;
         created_at := created_at_;
         importance := VNone;
         metadata := [("name", name_); ("source", source_);
                      ("episode_type", VStr "episode")] |}.

Definition _parse_episodes_to_memories (result : value) : M State (list Memory) :=
  let* episodes := lift (py_get result "episodes" (VList [])) in
  let* items := lift (py_iter episodes) in
  for_each parse_episode items.

Definition search_nodes_args (query_text group_id : string) (limit : Z) : pydict :=
  [("query", VStr query_text);
   ("group_ids", VList [VStr group_id]);
   ("max_nodes", VInt limit)].

Definition query (query_text : string) (group_id : string) (limit : Z)
  : M State (list Memory) :=
  let* _ := _check_mcp_available in
  let* result := invoke "search_nodes" (search_nodes_args query_text group_id limit) in
  _parse_nodes_to_memories result.

Definition search_memory_facts_args (query_text group_id : string) (limit : Z) : pydict :=
  [("query", VStr query_text);
   ("group_ids", VList [VStr group_id]);
   ("max_facts", VInt limit)].

Definition search_facts (query_text : string) (group_id : string) (limit : Z)
  : M State (list Relationship) :=
  let* _ := _check_mcp_available in
  let* result :=
    invoke "search_memory_facts" (search_memory_facts_args query_text group_id limit) in
  _parse_facts_to_relationships result.

Definition add_memory_args (content_ group_id : string) (kwargs : pydict) : pydict :=
  [("name", dict_get kwargs "title" (VStr "Untitled"));
   ("episode_body", VStr content_);
   ("group_id", VStr group_id);
   ("source", dict_get kwargs "source" (VStr "context-hub"));
   ("source_description",
    dict_get kwargs "source_description" (VStr "Saved via context-hub-plugin"))].

Definition save (content_ : string) (group_id : string) (kwargs : pydict)
  : M State value :=
  let* _ := _check_mcp_available in
  let* result := invoke "add_memory" (add_memory_args content_ group_id kwargs) in
  let* fallback := lift (py_get result "uuid" (VStr "unknown")) in
  lift (py_get result "episode_id" fallback).

Definition explore (starting_point : string) (group_id : string) (depth : Z)
  : M State KnowledgeGraph :=
  let* nodes_ := query starting_point group_id 10 in
  let* edges_ := search_facts starting_point group_id 20 in
  ret {| nodes := nodes_; edges := edges_ |}.

Definition get_episodes_args (group_id : string) (limit : Z) : pydict :=
  [("group_ids", VList [VStr group_id]);
   ("max_episodes", VInt limit)].

Definition list_recent (group_id : string) (limit : Z) : M State (list Memory) :=
  let* _ := _check_mcp_available in
  let* result := invoke "get_episodes" (get_episodes_args group_id limit) in
  _parse_episodes_to_memories result.

Definition get_capabilities : list OperationInfo :=
  map (fun kv =>
         {| name := fst kv;
            description := op_description (snd kv);
            params := op_params (snd kv);
            example := op_example (snd kv) |}) OPERATIONS.

Definition unknown_operation (operation : string) : exn :=
  ValueError ("Unknown operation: " +:+ operation).

Definition params_dict (ps : list (string * string)) : value :=
  VDict (map (fun kv => (fst kv, VStr (snd kv))) ps).

Definition get_schema (operation : string) : res value :=
  match lookup_op OPERATIONS operation with
  | None => Raise (unknown_operation operation)
  | Some op_info =>
      Ok (VDict [("description", VStr (op_description op_info));
                 ("params", params_dict (op_params op_info))])
  end.

Definition get_examples (operation : string) : res (list string) :=
  match lookup_op OPERATIONS operation with
  | None => Raise (unknown_operation operation)
  | Some op_info => Ok [op_example op_info]
  end.

End GraphitiBackend.
End GraphitiBackend.

(** ** Test doubles

    A runtime and in-memory services to run the backends against. *)

Module Fixtures.

(** A runtime whose timestamps are whole seconds since the epoch,
    written in decimal; the clock starts at 1000 and advances by one
    second per reading. *)
Definition epoch_runtime : PyRuntime :=
  {| datetime := nat;
     fromisoformat := fun s => option_map Nat.of_uint (NilEmpty.uint_of_string s);
     isoformat := fun t => NilEmpty.string_of_uint (Nat.to_uint t);
     wall_clock := fun k => (1000 + k)%nat;
     datetime_le := Nat.leb;
     repr_str := fun s => "'" +:+ s +:+ "'";
     float_str := fun bits => "float:" +:+ Z_str bits |}.

(** A record as the Forgetful service returns it. *)
Definition record (id_ : string) (created : string) (links : list string) : value :=
  VDict [("id", VStr id_);
         ("content", VStr ("about " +:+ id_));
         ("created_at", VStr created);
         ("linked_memory_ids", VList (map VStr links))].

Fixpoint links_of (g : list (string * list string)) (id_ : string) : option (list string) :=
  match g with
  | [] => None
  | (k, links) :: g' => if String.eqb k id_ then Some links else links_of g' id_
  end.

(** A Forgetful service holding the reference graph [g]: a query whose
    text is the id of a memory returns that memory and nothing else.
    It knows no project and answers every creation with project 1. *)
Definition lookup_host (g : list (string * list string)) : ForgetfulHost :=
  {| World := unit;
     execute_forgetful_tool := fun tool args w =>
       if String.eqb tool "list_projects" then (Ok (VDict [("projects", VList [])]), w)
       else if String.eqb tool "create_project" then (Ok (VDict [("project_id", VInt 1)]), w)
       else if String.eqb tool "query_memory" then
         match py_get args "query" VNone with
         | Ok (VStr text) =>
             match links_of g text with
             | Some links => (Ok (VDict [("memories", VList [record text "7" links])]), w)
             | None => (Ok (VDict [("memories", VList [])]), w)
             end
         | _ => (Raise (HostError "query_memory: bad arguments"), w)
         end
       else (Raise (HostError "unknown tool"), w);
     discover_forgetful_tools := fun w => (Ok (VList []), w) |}.

(** A Forgetful service with a project registry (the names, oldest
    first; the id of a project is its position, from 1) and a store of
    records.  It returns the whole store for every query and listing,
    whatever limit is asked for, and answers [create_memory] with an
    empty mapping. *)
Fixpoint project_rows (next : Z) (names : list string) : list value :=
  match names with
  | [] => []
  | n :: rest => VDict [("id", VInt next); ("name", VStr n)] :: project_rows (next + 1) rest
  end.

Definition store_host (store : list value) : ForgetfulHost :=
  {| World := list string;
     execute_forgetful_tool := fun tool args w =>
       if String.eqb tool "list_projects" then
         (Ok (VDict [("projects", VList (project_rows 1 w))]), w)
       else if String.eqb tool "create_project" then
         match py_get args "name" VNone with
         | Ok (VStr n) =>
             (Ok (VDict [("project_id", VInt (Z.of_nat (length w) + 1))]), w ++ [n])
         | _ => (Raise (HostError "create_project: bad arguments"), w)
         end
       else if String.eqb tool "query_memory" then (Ok (VDict [("memories", VList store)]), w)
       else if String.eqb tool "list_memories" then (Ok (VDict [("memories", VList store)]), w)
       else if String.eqb tool "create_memory" then (Ok (VDict []), w)
       else (Raise (HostError "unknown tool"), w);
     discover_forgetful_tools := fun w => (Ok (VList []), w) |}.

(** A Graphiti service with every tool bound.  It returns all its nodes,
    facts and episodes whatever limit is asked for, and answers
    [add_memory] with an empty mapping. *)
Definition graphiti_stub (nodes_ facts episodes : list value) : GraphitiHost :=
  {| GWorld := unit;
     graphiti_tool := fun tool =>
       if String.eqb tool "get_status" then Some (fun _ w => (Ok (VDict []), w))
       else if String.eqb tool "search_nodes" then
         Some (fun _ w => (Ok (VDict [("nodes", VList nodes_)]), w))
       else if String.eqb tool "search_memory_facts" then
         Some (fun _ w => (Ok (VDict [("facts", VList facts)]), w))
       else if String.eqb tool "get_episodes" then
         Some (fun _ w => (Ok (VDict [("episodes", VList episodes)]), w))
       else if String.eqb tool "add_memory" then Some (fun _ w => (Ok (VDict []), w))
       else None |}.

(** Seven stored memories about authentication, as in the scenario of
    the query with limit 5. *)
Definition seeded_store : list value :=
  map (fun k => record ("auth-" +:+ k) "100" [])
      ["1"; "2"; "3"; "4"; "5"; "6"; "7"].

(** Three stored memories, not in the order of their timestamps. *)
Definition unsorted_store : list value :=
  [record "m1" "10" []; record "m2" "30" []; record "m3" "20" []].

(** The cyclic graph: A references B and B references A. *)
Definition cyclic_graph : list (string * list string) :=
  [("A", ["B"]); ("B", ["A"])].

(** root -> {a, b}, a -> {c}, b -> {}, and c with no reference. *)
Definition tree_graph : list (string * list string) :=
  [("root", ["a"; "b"]); ("a", ["c"]); ("b", []); ("c", [])].

End Fixtures.

(** ** Further vocabulary and test doubles *)

(** A listed project that is a mapping with another name. *)
Definition other_project (gid : string) (item : value) : Prop :=
  exists d, item = VDict d /\ dict_get d "name" VNone <> VStr gid.

(** Two metadata bags that give the same value for every key of [keys],
    whatever the default. *)
Definition agree_on (keys : list string) (kwargs1 kwargs2 : pydict) : Prop :=
  forall key default, In key keys ->
    dict_get kwargs1 key default = dict_get kwargs2 key default.


Module MoreFixtures.


(** A Forgetful service that knows no project, answers every creation
    with project 1 and answers [create_memory] with [answer]. *)
Definition save_host (answer : value) : ForgetfulHost :=
  {| World := unit;
     execute_forgetful_tool := fun tool args w =>
       if String.eqb tool "list_projects" then (Ok (VDict [("projects", VList [])]), w)
       else if String.eqb tool "create_project" then (Ok (VDict [("project_id", VInt 1)]), w)
       else if String.eqb tool "create_memory" then (Ok answer, w)
       else (Raise (HostError "unknown tool"), w);
     discover_forgetful_tools := fun w => (Ok (VList []), w) |}.

(** A Graphiti execution context in which only the tools named in
    [bound] exist; each of them answers with [answer]. *)
Definition graphiti_partial (bound : list string) (answer : value) : GraphitiHost :=
  {| GWorld := unit;
     graphiti_tool := fun tool =>
       if existsb (String.eqb tool) bound
       then Some (fun _ w => (Ok answer, w))
       else None |}.

(** A record whose [linked_memory_ids] is a JSON null. *)
Definition null_links_record : value :=
  VDict [("id", VStr "m"); ("created_at", VStr "5"); ("linked_memory_ids", VNone)].

(** A record whose [created_at] is a JSON null. *)
Definition null_created_at_record : value :=
  VDict [("id", VStr "m"); ("created_at", VNone)].

(** Two episodes: one with a content, one with a name only. *)
Definition two_episodes : list value :=
  [VDict [("uuid", VStr "e1"); ("name", VStr "first"); ("content", VStr "body");
          ("created_at", VStr "3")];
   VDict [("uuid", VStr "e2"); ("name", VStr "second"); ("created_at", VStr "4")]].

(** Two facts, the second with no field at all. *)
Definition two_facts : list pydict :=
  [[("source_node_uuid", VStr "n1"); ("target_node_uuid", VStr "n2");
    ("fact", VStr "n1 uses n2"); ("created_at", VNone)];
   []].

(** Two stored memories, the first linking to the second and to a
    memory that is not stored. *)
Definition linked_store : list value :=
  [Fixtures.record "m1" "10" ["m2"; "m9"]; Fixtures.record "m2" "30" []].

End MoreFixtures.

(** * Properties *)

(** ** Python values *)

Lemma value_eqb_refl : forall v, value_eqb v v = true.
Proof.
  fix IH 1. intros [| b | n | n | s | items | d]; simpl.
  - reflexivity.
  - destruct b; reflexivity.
  - apply Z.eqb_refl.
  - apply Z.eqb_refl.
  - apply String.eqb_refl.
  - induction items as [| x xs IHxs]; [reflexivity |].
    rewrite IH. exact IHxs.
  - induction d as [| [k x] xs IHxs]; [reflexivity |].
    rewrite String.eqb_refl, IH. exact IHxs.
Qed.

Lemma value_eqb_str (a b : string) : value_eqb (VStr a) (VStr b) = String.eqb a b.
Proof. reflexivity. Qed.

Lemma dict_get_absent d key default :
  dict_has d key = false -> dict_get d key default = default.
Proof.
  induction d as [| [k v] d IH]; simpl; [reflexivity |].
  destruct (String.eqb k key); [discriminate | exact IH].
Qed.

(** ** The monad *)

Lemma bind_ok {S A B} (m : M S A) (k : A -> M S B) st a st' :
  m st = (Ok a, st') -> bind m k st = k a st'.
Proof. unfold bind. intros ->. reflexivity. Qed.

Lemma bind_raise {S A B} (m : M S A) (k : A -> M S B) st e st' :
  m st = (Raise e, st') -> bind m k st = (Raise e, st').
Proof. unfold bind. intros ->. reflexivity. Qed.

Lemma bind_inv {S A B} (m : M S A) (k : A -> M S B) st b st2 :
  bind m k st = (Ok b, st2) ->
  exists a st1, m st = (Ok a, st1) /\ k a st1 = (Ok b, st2).
Proof.
  unfold bind. destruct (m st) as [[a | e] st1]; [eauto | discriminate].
Qed.

Lemma lift_inv {S A} (r : res A) (st : S) a st' :
  lift r st = (Ok a, st') -> r = Ok a /\ st' = st.
Proof. unfold lift. intros [= -> ->]. split; reflexivity. Qed.

(** A loop that returns has run its body once per item, in order. *)
Lemma for_each_inv {S A B} (f : A -> M S B) (R : A -> B -> Prop) :
  (forall x st y st', f x st = (Ok y, st') -> R x y) ->
  forall items st ys st',
    for_each f items st = (Ok ys, st') -> Forall2 R items ys.
Proof.
  intros Hf. induction items as [| x rest IH]; simpl; intros st ys st' Hrun.
  - injection Hrun as <- _. constructor.
  - apply bind_inv in Hrun as (y & st1 & Hy & Hrun).
    apply bind_inv in Hrun as (ys' & st2 & Hys & Hrun).
    injection Hrun as <- _.
    constructor; [eapply Hf, Hy | eapply IH, Hys].
Qed.

(** ** ForgetfulBackend.explore *)

Module ExploreSpec.
Section ExploreSpec.
Context {RT : PyRuntime} {Host : ForgetfulHost}.
Import ForgetfulBackend.

Lemma follow_links_spec depth d memory linked_ids fr :
  follow_links depth d memory linked_ids fr =
  {| visited := visited fr;
     nodes_ := nodes_ fr;
     edges_ := edges_ fr ++ map (linked_to memory) linked_ids;
     queue := queue fr ++ enqueued depth d linked_ids |}.
Proof.
  unfold enqueued. revert fr.
  induction linked_ids as [| l ls IH]; intros fr; simpl.
  - destruct fr; simpl. rewrite !app_nil_r.
    destruct (d <? depth); rewrite ?app_nil_r; reflexivity.
  - rewrite IH. simpl.
    destruct (d <? depth); simpl; rewrite <- ?app_assoc; simpl; reflexivity.
Qed.

(** *** The traversal keeps [nodes] free of repeated ids *)

Lemma id_in_false x s : id_in x s = false -> ~ In x s.
Proof.
  unfold id_in. intros Hex Hin.
  assert (existsb (value_eqb x) s = true) as Htrue.
  { apply existsb_exists. exists x. split; [exact Hin | apply value_eqb_refl]. }
  congruence.
Qed.

Lemma visit_memories_ok depth d memories :
  forall fr fr', frame_ok fr ->
    visit_memories depth d memories fr = Ok fr' -> frame_ok fr'.
Proof.
  induction memories as [| m rest IH]; simpl; intros fr fr' Hok Hrun.
  - injection Hrun as <-. exact Hok.
  - destruct (id_in (id m) (visited fr)) eqn:Hseen; [eapply IH; eauto |].
    destruct (py_iter _) as [linked_ids | e]; [| discriminate].
    eapply IH; [| exact Hrun].
    rewrite follow_links_spec. destruct Hok as [Hv Hnd].
    split; simpl.
    + rewrite map_app, rev_app_distr. simpl. f_equal. exact Hv.
    + apply NoDup_cons. split; [| exact Hnd].
      rewrite list_elem_of_In. apply id_in_false, Hseen.
Qed.

Lemma explore_loop_ok fuel gid depth :
  forall fr st g st', frame_ok fr ->
    explore_loop fuel gid depth fr st = Some (Ok g, st') ->
    NoDup (map id (nodes g)).
Proof.
  induction fuel as [| fuel IH]; simpl; intros fr st g st' Hok Hrun; [discriminate |].
  assert (NoDup (map id (nodes (graph_of fr)))) as Hdone.
  { destruct Hok as [Hv Hnd]. simpl. rewrite Hv in Hnd.
    apply NoDup_ListNoDup in Hnd. apply NoDup_ListNoDup.
    apply List.NoDup_rev in Hnd. rewrite rev_involutive in Hnd. exact Hnd. }
  destruct (queue fr) as [| [text d] rest] eqn:Hq.
  - injection Hrun as <- _. exact Hdone.
  - destruct (d >? depth).
    + injection Hrun as <- _. exact Hdone.
    + destruct (query text gid 5 st) as [[memories | e] st1]; [| discriminate].
      destruct (visit_memories _ _ _ _) as [fr1 | e] eqn:Hvisit; [| discriminate].
      eapply IH; [| exact Hrun].
      eapply visit_memories_ok; [| exact Hvisit]. exact Hok.
Qed.


(** *** The traversal terminates *)


Lemma enqueued_levels depth d linked_ids k :
  (levels_left depth (EmptyString, d) <= S k)%nat ->
  Forall (fun e => (levels_left depth e <= k)%nat) (enqueued depth d linked_ids).
Proof.
  unfold enqueued, levels_left. simpl. intros Hd.
  destruct (d <? depth) eqn:Hlt; [| constructor].
  apply Z.ltb_lt in Hlt.
  apply Forall_forall. intros e Hin.
  apply list_elem_of_In, in_map_iff in Hin as (l & <- & _). simpl. lia.
Qed.

Lemma visit_memories_queue depth d k memories :
  (levels_left depth (EmptyString, d) <= S k)%nat ->
  forall fr fr',
    visit_memories depth d memories fr = Ok fr' ->
    exists new, queue fr' = queue fr ++ new /\
                Forall (fun e => (levels_left depth e <= k)%nat) new.
Proof.
  intros Hd.
  induction memories as [| m rest IH]; simpl; intros fr fr' Hrun.
  - injection Hrun as <-. exists []. rewrite app_nil_r. split; [reflexivity | constructor].
  - destruct (id_in (id m) (visited fr)); [eapply IH; eauto |].
    destruct (py_iter _) as [linked_ids | e]; [| discriminate].
    apply IH in Hrun as (new & Hq & Hnew).
    rewrite follow_links_spec in Hq. simpl in Hq.
    exists (enqueued depth d linked_ids ++ new). split.
    + rewrite Hq, app_assoc. reflexivity.
    + apply Forall_app. split; [apply enqueued_levels, Hd | exact Hnew].
Qed.

(** Running the loop over a front of the queue whose entries have at
    most [S k] levels left either ends the traversal or leaves the rest
    of the queue followed by entries with at most [k] levels left. *)
Lemma explore_loop_drain gid depth k :
  forall front, Forall (fun e => (levels_left depth e <= S k)%nat) front ->
  forall fr st rest, queue fr = front ++ rest ->
  exists fuel,
    (exists out, explore_loop fuel gid depth fr st = Some out) \/
    (exists fr' st' new,
        queue fr' = rest ++ new /\
        Forall (fun e => (levels_left depth e <= k)%nat) new /\
        forall extra,
          explore_loop (fuel + extra) gid depth fr st =
          explore_loop extra gid depth fr' st').
Proof.
  induction front as [| [text d] front IH]; intros Hlev fr st rest Hq.
  - exists 0%nat. right. exists fr, st, []. rewrite app_nil_r.
    split; [exact Hq |]. split; [constructor | reflexivity].
  - apply Forall_cons in Hlev as [Hd Hlev].
    destruct (d >? depth) eqn:Hgt.
    { exists 1%nat. left. eexists. simpl. rewrite Hq. simpl. rewrite Hgt. reflexivity. }
    destruct (query text gid 5 st) as [[memories | e] st1] eqn:Hquery.
    2:{ exists 1%nat. left. eexists. simpl. rewrite Hq. simpl.
        rewrite Hgt, Hquery. reflexivity. }
    destruct (visit_memories depth d memories
                {| visited := visited fr; nodes_ := nodes_ fr;
                   edges_ := edges_ fr; queue := front ++ rest |})
      as [fr1 | e] eqn:Hvisit.
    2:{ exists 1%nat. left. eexists. simpl. rewrite Hq. simpl.
        rewrite Hgt, Hquery, Hvisit. reflexivity. }
    pose proof Hvisit as Hqueue.
    apply (visit_memories_queue depth d k) in Hqueue as (new1 & Hq1 & Hnew1);
      [| exact Hd].
    simpl in Hq1. rewrite <- app_assoc in Hq1.
    destruct (IH Hlev fr1 st1 (rest ++ new1) Hq1) as [fuel [[out Hout] | Hgo]].
    + exists (S fuel). left. exists out. simpl. rewrite Hq. simpl.
      rewrite Hgt, Hquery, Hvisit. exact Hout.
    + destruct Hgo as (fr' & st' & new2 & Hq' & Hnew2 & Hgo).
      exists (S fuel). right. exists fr', st', (new1 ++ new2).
      split; [rewrite Hq', app_assoc; reflexivity |].
      split; [apply Forall_app; split; assumption |].
      intros extra. simpl. rewrite Hq. simpl.
      rewrite Hgt, Hquery, Hvisit. apply Hgo.
Qed.

Lemma explore_loop_total gid depth k :
  forall fr st, Forall (fun e => (levels_left depth e <= k)%nat) (queue fr) ->
  exists fuel out, explore_loop fuel gid depth fr st = Some out.
Proof.
  induction k as [| k IH]; intros fr st Hlev.
  - exists 1%nat. simpl.
    destruct (queue fr) as [| [text d] rest]; [eauto |].
    apply Forall_cons in Hlev as [Hd _]. unfold levels_left in Hd. simpl in Hd.
    assert ((d >? depth) = true) as -> by (apply Z.gtb_lt; lia). eauto.
  - destruct (explore_loop_drain gid depth k (queue fr) Hlev fr st [])
      as [fuel [[out Hout] | Hgo]]; [rewrite app_nil_r; reflexivity | eauto |].
    destruct Hgo as (fr' & st' & new & Hq' & Hnew & Hgo).
    simpl in Hq'. rewrite <- Hq' in Hnew.
    destruct (IH fr' st' Hnew) as (fuel' & out & Hout).
    exists (fuel + fuel')%nat, out. rewrite Hgo. exact Hout.
Qed.

(** Every call to [explore] returns or raises: some bound on the number
    of loop tests is enough, for every service, starting point and
    depth. *)
Lemma explore_total start gid depth st :
  exists fuel out, explore fuel start gid depth st = Some out.
Proof.
  apply (explore_loop_total gid depth (levels_left depth (start, 0))).
  simpl. constructor; [lia | constructor].
Qed.

(** *** One turn of the loop *)

Lemma explore_loop_step fuel gid depth fr st text d rest memories st1 fr1 :
  queue fr = (text, d) :: rest ->
  d <= depth ->
  query text gid 5 st = (Ok memories, st1) ->
  visit_memories depth d memories
    {| visited := visited fr; nodes_ := nodes_ fr;
       edges_ := edges_ fr; queue := rest |} = Ok fr1 ->
  explore_loop (S fuel) gid depth fr st = explore_loop fuel gid depth fr1 st1.
Proof.
  intros Hq Hd Hquery Hvisit. simpl. rewrite Hq.
  assert ((d >? depth) = false) as -> by (rewrite Z.gtb_ltb; apply Z.ltb_ge; lia).
  rewrite Hquery, Hvisit. reflexivity.
Qed.

Lemma visit_one_new depth d m linked_ids fr :
  id_in (id m) (visited fr) = false ->
  dict_get (metadata m) "linked_memory_ids" (VList []) = VList linked_ids ->
  visit_memories depth d [m] fr =
  Ok {| visited := id m :: visited fr;
        nodes_ := nodes_ fr ++ [m];
        edges_ := edges_ fr ++ map (linked_to m) linked_ids;
        queue := queue fr ++ enqueued depth d linked_ids |}.
Proof.
  intros Hnew Hlinks. simpl. rewrite Hnew, Hlinks. simpl.
  rewrite follow_links_spec. reflexivity.
Qed.


Lemma enqueued_below depth d linked_ids :
  d < depth ->
  enqueued depth d linked_ids = map (fun l => (py_str l, d + 1)) linked_ids.
Proof. intros Hd. unfold enqueued. apply Z.ltb_lt in Hd. rewrite Hd. reflexivity. Qed.

Lemma enqueued_at_depth depth d linked_ids :
  depth <= d -> enqueued depth d linked_ids = [].
Proof. intros Hd. unfold enqueued. apply Z.ltb_ge in Hd. rewrite Hd. reflexivity. Qed.


(** *** Where nodes and edges come from *)

Lemma visit_memories_graph depth d memories :
  forall fr fr',
    visit_memories depth d memories fr = Ok fr' ->
    (forall m, In m (nodes_ fr') -> In m (nodes_ fr) \/ In m memories) /\
    (edges_from_nodes fr -> edges_from_nodes fr') /\
    (depth <= d -> queue fr' = queue fr).
Proof.
  induction memories as [| m rest IH]; simpl; intros fr fr' Hrun.
  - injection Hrun as <-. auto.
  - destruct (id_in (id m) (visited fr)).
    { apply IH in Hrun as (Hn & He & Hq). split; [| auto].
      intros m' Hin. destruct (Hn m' Hin); auto. }
    destruct (py_iter _) as [linked_ids | e]; [| discriminate].
    apply IH in Hrun as (Hn & He & Hq).
    rewrite follow_links_spec in Hn, He, Hq. simpl in Hn, Hq.
    split; [| split].
    + intros m' Hin. destruct (Hn m' Hin) as [Hold | Hrest]; [| auto].
      apply in_app_or in Hold as [Hold | [<- | []]]; auto.
    + intros Hfr. apply He. intros e Hin. simpl in Hin |- *.
      apply in_app_or in Hin as [Hold | Hnew].
      * destruct (Hfr e Hold) as (m' & Hm' & Hsrc).
        exists m'. split; [apply in_or_app; auto | exact Hsrc].
      * apply in_map_iff in Hnew as (l & <- & _).
        exists m. split; [apply in_or_app; simpl; auto | reflexivity].
    + intros Hd. rewrite (Hq Hd), enqueued_at_depth by exact Hd.
      apply app_nil_r.
Qed.

(** C2. With [depth = 0], [explore] makes the initial query and no
    other: it ends in the state that query left, after two loop tests.
    When it returns a graph, every node is one of the memories the
    query returned and every edge starts at one of these nodes. *)
Theorem explore_depth_zero (start gid : string) (st : State) :
  exists r1 st1 r,
    query start gid 5 st = (r1, st1) /\
    (forall extra, explore (2 + extra) start gid 0 st = Some (r, st1)) /\
    match r with
    | Raise e => True
    | Ok g =>
        exists memories,
          r1 = Ok memories /\
          (forall m, In m (nodes g) -> In m memories) /\
          (forall e, In e (edges g) -> exists m, In m (nodes g) /\ source e = id m)
    end.
Proof.
  unfold explore, explore_start.
  destruct (query start gid 5 st) as [[memories | e] st1] eqn:Hquery.
  2:{ exists (Raise e), st1, (Raise e). split; [reflexivity |]. split; [| exact I].
      intros extra. simpl. rewrite Hquery. reflexivity. }
  destruct (visit_memories 0 0 memories
              {| visited := []; nodes_ := []; edges_ := []; queue := [] |})
    as [fr | e] eqn:Hvisit.
  2:{ exists (Ok memories), st1, (Raise e). split; [reflexivity |]. split; [| exact I].
      intros extra. simpl. rewrite Hquery, Hvisit. reflexivity. }
  pose proof (visit_memories_graph _ _ _ _ _ Hvisit) as (Hn & He & Hq).
  specialize (Hq (Z.le_refl 0)). simpl in Hq.
  exists (Ok memories), st1, (Ok (graph_of fr)). split; [reflexivity |]. split.
  - intros extra. simpl. rewrite Hquery, Hvisit, Hq. reflexivity.
  - exists memories. split; [reflexivity |]. split.
    + intros m Hin. destruct (Hn m Hin) as [[] | Hm]. exact Hm.
    + apply He. intros e [].
Qed.

(** C3. Over the fixture graph root -> {a, b}, a -> {c}, b -> {}, with
    queries that resolve each id to its memory, [explore] from root at
    depth 2 returns the four nodes root, a, b, c in this order and the
    edges root->a, root->b, a->c followed by the edges out of c.
    Whatever c references, nothing is queried after c: the traversal
    ends at the fifth loop test, and when c references nothing the edges
    are exactly the three. *)
Theorem explore_fixture_tree (gid : string) (c_links : list value) (st : State) :
  resolves gid "root" "root" [VStr "a"; VStr "b"] ->
  resolves gid "a" "a" [VStr "c"] ->
  resolves gid "b" "b" [] ->
  resolves gid "c" "c" c_links ->
  forall extra, exists g st',
    explore (5 + extra) "root" gid 2 st = Some (Ok g, st') /\
    map id (nodes g) = [VStr "root"; VStr "a"; VStr "b"; VStr "c"] /\
    map endpoints (edges g) =
      [(VStr "root", VStr "a"); (VStr "root", VStr "b"); (VStr "a", VStr "c")]
      ++ map (fun l => (VStr "c", VStr (py_str l))) c_links /\
    (c_links = [] ->
     map endpoints (edges g) =
       [(VStr "root", VStr "a"); (VStr "root", VStr "b"); (VStr "a", VStr "c")]).
Proof.
  intros Hroot Ha Hb Hc extra.
  destruct (Hroot st) as (m0 & st0 & Hq0 & Hid0 & Hl0).
  destruct (Ha st0) as (m1 & st1 & Hq1 & Hid1 & Hl1).
  destruct (Hb st1) as (m2 & st2 & Hq2 & Hid2 & Hl2).
  destruct (Hc st2) as (m3 & st3 & Hq3 & Hid3 & Hl3).
  assert (explore (5 + extra) "root" gid 2 st =
          Some (Ok {| nodes := [m0; m1; m2; m3];
                      edges := [linked_to m0 (VStr "a"); linked_to m0 (VStr "b");
                                linked_to m1 (VStr "c")]
                               ++ map (linked_to m3) c_links |}, st3))
    as Hrun.
  { unfold explore, explore_start.
    change (5 + extra)%nat with (S (S (S (S (S extra))))).
    erewrite explore_loop_step;
      [| reflexivity | lia | exact Hq0
       | apply visit_one_new; [reflexivity | exact Hl0] ].
    rewrite enqueued_below by lia.
    erewrite explore_loop_step;
      [| reflexivity | simpl; lia | exact Hq1
       | apply visit_one_new; [| exact Hl1] ].
    2:{ simpl. rewrite Hid0, Hid1. reflexivity. }
    rewrite enqueued_below by (simpl; lia).
    erewrite explore_loop_step;
      [| reflexivity | simpl; lia | exact Hq2
       | apply visit_one_new; [| exact Hl2] ].
    2:{ simpl. rewrite Hid0, Hid1, Hid2. reflexivity. }
    rewrite enqueued_below by (simpl; lia).
    erewrite explore_loop_step;
      [| reflexivity | simpl; lia | exact Hq3
       | apply visit_one_new; [| exact Hl3] ].
    2:{ simpl. rewrite Hid0, Hid1, Hid2, Hid3. reflexivity. }
    rewrite enqueued_at_depth by (simpl; lia).
    reflexivity. }
  assert (map endpoints
            ([linked_to m0 (VStr "a"); linked_to m0 (VStr "b"); linked_to m1 (VStr "c")]
             ++ map (linked_to m3) c_links) =
          [(VStr "root", VStr "a"); (VStr "root", VStr "b"); (VStr "a", VStr "c")]
          ++ map (fun l => (VStr "c", VStr (py_str l))) c_links) as Hedges.
  { rewrite map_app, map_map. unfold endpoints, linked_to. simpl.
    rewrite Hid0, Hid1, Hid3. reflexivity. }
  eexists _, st3. split; [exact Hrun |].
  split; [simpl; congruence |].
  split; [exact Hedges |].
  intros Hnil. etransitivity; [exact Hedges |]. rewrite Hnil. reflexivity.
Qed.

End ExploreSpec.
End ExploreSpec.

(** ** ForgetfulBackend: namespaces, parsing, limits *)

Module ForgetfulSpec.
Section ForgetfulSpec.
Context {RT : PyRuntime} {Host : ForgetfulHost}.
Import ForgetfulBackend.

(** *** Namespace resolution *)

(** A namespace found in the cache is answered from it: the state,
    and with it the list of external calls, stays as it was. *)
Lemma resolve_cached gid pid st :
  _project_cache st !! gid = Some pid ->
  _group_to_project_id gid st = (Ok pid, st).
Proof. intros Hhit. unfold _group_to_project_id. rewrite Hhit. reflexivity. Qed.

(** A resolution that misses the cache and succeeds lists the projects,
    creates at most one, and stores the id it returns. *)
Lemma resolve_miss gid pid st st1 :
  _project_cache st !! gid = None ->
  _group_to_project_id gid st = (Ok pid, st1) ->
  _project_cache st1 !! gid = Some pid /\
  exists new,
    calls st1 = calls st ++ new /\ (count_calls "create_project" new <= 1)%nat.
Proof.
  intros Hmiss. unfold _group_to_project_id. rewrite Hmiss.
  unfold bind, invoke, lift, cache_store, ret.
  destruct (execute_forgetful_tool "list_projects" (VDict []) (world st))
    as [[result | e] w1]; [| discriminate].
  destruct (py_get result "projects" (VList [])) as [projects | e]; [| discriminate].
  destruct (py_iter projects) as [items | e]; [| discriminate].
  destruct (find_project gid items) as [[found |] | e]; [| | discriminate].
  - intros [= <- <-]. simpl. split; [apply lookup_insert_eq |].
    exists [("list_projects", VDict [])]. split; [reflexivity | vm_compute; lia].
  - simpl.
    destruct (execute_forgetful_tool "create_project" _ w1)
      as [[create_result | e] w2]; [| discriminate].
    destruct (py_get create_result "id" VNone) as [fallback | e]; [| discriminate].
    destruct (py_get create_result "project_id" fallback) as [project_id | e];
      [| discriminate].
    intros [= <- <-]. simpl. split; [apply lookup_insert_eq |].
    eexists [_; _]. split; [rewrite <- app_assoc; reflexivity | vm_compute; lia].
Qed.

(** [save] after the namespace is resolved: the one external call is
    [create_memory], and the cache is left alone. *)
Lemma save_cached content_ gid kwargs pid st :
  _project_cache st !! gid = Some pid ->
  exists r st',
    save content_ gid kwargs st = (r, st') /\
    _project_cache st' = _project_cache st /\
    calls st' = calls st ++ [("create_memory", VDict (create_memory_args content_ kwargs pid))].
Proof.
  intros Hhit. unfold save.
  rewrite (bind_ok _ _ _ _ _ (resolve_cached gid pid st Hhit)).
  unfold bind, invoke, lift, ret.
  destruct (execute_forgetful_tool "create_memory" _ (world st)) as [[result | e] w1];
    [| eauto].
  destruct (py_get result "id" (VStr "unknown")) as [fallback | e]; [| eauto].
  destruct (py_get result "memory_id" fallback) as [memory_id | e]; eauto.
Qed.

(** C5. When a namespace that is not in the cache is resolved, the
    resolution issues at most one [create_project] call; from then on
    every resolution of the namespace returns the same project id
    without changing the state, so without any external call; and two
    [save]s in a row add exactly two [create_memory] calls, both with
    that project id, to the calls of the first resolution. *)
Theorem namespace_resolved_once (gid : string) (pid : value) (st st1 : State) :
  _project_cache st !! gid = None ->
  _group_to_project_id gid st = (Ok pid, st1) ->
  (exists new,
      calls st1 = calls st ++ new /\ (count_calls "create_project" new <= 1)%nat) /\
  (forall st2, _project_cache st2 !! gid = _project_cache st1 !! gid ->
               _group_to_project_id gid st2 = (Ok pid, st2)) /\
  (forall content1 kwargs1 content2 kwargs2, exists r1 sta r2 stb,
      save content1 gid kwargs1 st = (r1, sta) /\
      save content2 gid kwargs2 sta = (r2, stb) /\
      calls stb =
        calls st1 ++
        [("create_memory", VDict (create_memory_args content1 kwargs1 pid));
         ("create_memory", VDict (create_memory_args content2 kwargs2 pid))]).
Proof.
  intros Hmiss Hresolve.
  destruct (resolve_miss gid pid st st1 Hmiss Hresolve) as (Hstored & Hcalls).
  split; [exact Hcalls |]. split.
  - intros st2 Hsame. apply resolve_cached. rewrite Hsame. exact Hstored.
  - intros content1 kwargs1 content2 kwargs2.
    destruct (save_cached content1 gid kwargs1 pid st1 Hstored)
      as (r1 & sta & Hsave1 & Hcache1 & Hcalls1).
    assert (_project_cache sta !! gid = Some pid) as Hstored' by (rewrite Hcache1; exact Hstored).
    destruct (save_cached content2 gid kwargs2 pid sta Hstored')
      as (r2 & stb & Hsave2 & _ & Hcalls2).
    exists r1, sta, r2, stb. split; [| split; [exact Hsave2 |]].
    + (* the first save starts with the resolution that misses *)
      rewrite <- Hsave1. unfold save.
      rewrite (bind_ok _ _ st _ _ Hresolve).
      rewrite (bind_ok _ _ st1 _ _ (resolve_cached gid pid st1 Hstored)).
      reflexivity.
    + rewrite Hcalls2, Hcalls1, <- app_assoc. reflexivity.
Qed.

End ForgetfulSpec.
End ForgetfulSpec.

(** ** Parsing what the services return *)

Module ParsingSpec.
Section ParsingSpec.
Context {RT : PyRuntime} {Laws : PyRuntimeLaws}.
Context {FHost : ForgetfulHost} {GHost : GraphitiHost}.

Lemma py_fromisoformat_now t : py_fromisoformat (VStr (isoformat t)) = Ok t.
Proof. unfold py_fromisoformat. rewrite fromisoformat_isoformat. reflexivity. Qed.

(** One Forgetful record without [created_at]. *)
Lemma parse_memory_no_created_at d st :
  dict_has d "created_at" = false ->
  ForgetfulBackend.parse_memory (VDict d) st =
  (Ok {| id := VStr (py_str (dict_get d "id" (VStr EmptyString)));
         content := dict_get d "content" (VStr EmptyString);
         created_at := wall_clock (ForgetfulBackend.ticks st);
         importance := dict_get d "importance" VNone;
         metadata :=
           [("title", dict_get d "title" (VStr EmptyString));
            ("keywords", dict_get d "keywords" (VList []));
            ("tags", dict_get d "tags" (VList []));
            ("linked_memory_ids", dict_get d "linked_memory_ids" (VList []))] |},
   ForgetfulBackend.tick st).
Proof.
  intros Habsent.
  unfold ForgetfulBackend.parse_memory, bind, lift, ForgetfulBackend.now, ret. simpl.
  rewrite (dict_get_absent d "created_at" _ Habsent), py_fromisoformat_now.
  reflexivity.
Qed.

(** One Graphiti node without [created_at]. *)
Lemma parse_node_no_created_at d st :
  dict_has d "created_at" = false ->
  GraphitiBackend.parse_node (VDict d) st =
  (Ok {| id := dict_get d "uuid" (VStr EmptyString);
         content := dict_get d "name" (VStr EmptyString);
         created_at := wall_clock (GraphitiBackend.ticks st);
         importance := VNone;
         metadata := [("summary", dict_get d "summary" (VStr EmptyString))] |},
   GraphitiBackend.tick st).
Proof.
  intros Habsent.
  unfold GraphitiBackend.parse_node, bind, lift, GraphitiBackend.now, ret. simpl.
  rewrite (dict_get_absent d "created_at" _ Habsent), py_fromisoformat_now.
  reflexivity.
Qed.

Lemma parse_memories_no_created_at ds :
  Forall no_created_at ds ->
  forall st, exists memories st',
    for_each ForgetfulBackend.parse_memory (map VDict ds) st = (Ok memories, st') /\
    length memories = length ds /\
    forall i m, memories !! i = Some m ->
                created_at m = wall_clock (ForgetfulBackend.ticks st + i).
Proof.
  induction 1 as [| d ds Hd _ IH]; intros st; simpl.
  - exists [], st. split; [reflexivity |]. split; [reflexivity | intros i m; discriminate].
  - destruct (IH (ForgetfulBackend.tick st)) as (ms & st' & Hrun & Hlen & Hat).
    eexists _, st'. unfold bind at 1. rewrite (parse_memory_no_created_at d st Hd).
    unfold bind at 1. rewrite Hrun. split; [reflexivity |].
    split; [simpl; congruence |].
    intros [| i] m Hm; simpl in Hm.
    + injection Hm as <-. simpl. f_equal. lia.
    + rewrite (Hat i m Hm). simpl. f_equal. lia.
Qed.

Lemma parse_nodes_no_created_at ds :
  Forall no_created_at ds ->
  forall st, exists memories st',
    for_each GraphitiBackend.parse_node (map VDict ds) st = (Ok memories, st') /\
    length memories = length ds /\
    forall i m, memories !! i = Some m ->
                created_at m = wall_clock (GraphitiBackend.ticks st + i).
Proof.
  induction 1 as [| d ds Hd _ IH]; intros st; simpl.
  - exists [], st. split; [reflexivity |]. split; [reflexivity | intros i m; discriminate].
  - destruct (IH (GraphitiBackend.tick st)) as (ms & st' & Hrun & Hlen & Hat).
    eexists _, st'. unfold bind at 1. rewrite (parse_node_no_created_at d st Hd).
    unfold bind at 1. rewrite Hrun. split; [reflexivity |].
    split; [simpl; congruence |].
    intros [| i] m Hm; simpl in Hm.
    + injection Hm as <-. simpl. f_equal. lia.
    + rewrite (Hat i m Hm). simpl. f_equal. lia.
Qed.

(** C6. A record without [created_at] is parsed without an exception,
    by [_parse_forgetful_memories] and by [_parse_nodes_to_memories]:
    the memory gets the reading of the clock taken for that record, and
    every other field the record lacks gets its default (the empty
    string, the empty list, [None] for [importance]).  A result whose
    records all lack [created_at] gives one memory per record. *)
Theorem parse_without_created_at :
  (forall d st, no_created_at d ->
     ForgetfulBackend.parse_memory (VDict d) st =
     (Ok {| id := VStr (py_str (dict_get d "id" (VStr EmptyString)));
            content := dict_get d "content" (VStr EmptyString);
            created_at := wall_clock (ForgetfulBackend.ticks st);
            importance := dict_get d "importance" VNone;
            metadata :=
              [("title", dict_get d "title" (VStr EmptyString));
               ("keywords", dict_get d "keywords" (VList []));
               ("tags", dict_get d "tags" (VList []));
               ("linked_memory_ids", dict_get d "linked_memory_ids" (VList []))] |},
      ForgetfulBackend.tick st)) /\
  (forall d st, no_created_at d ->
     GraphitiBackend.parse_node (VDict d) st =
     (Ok {| id := dict_get d "uuid" (VStr EmptyString);
            content := dict_get d "name" (VStr EmptyString);
            created_at := wall_clock (GraphitiBackend.ticks st);
            importance := VNone;
            metadata := [("summary", dict_get d "summary" (VStr EmptyString))] |},
      GraphitiBackend.tick st)) /\
  (forall d key default, dict_has d key = false -> dict_get d key default = default) /\
  (forall result ds st,
     dict_get result "memories" (VList []) = VList (map VDict ds) ->
     Forall no_created_at ds ->
     exists memories st',
       ForgetfulBackend._parse_forgetful_memories (VDict result) st = (Ok memories, st') /\
       length memories = length ds /\
       forall i m, memories !! i = Some m ->
                   created_at m = wall_clock (ForgetfulBackend.ticks st + i)) /\
  (forall result ds st,
     dict_get result "nodes" (VList []) = VList (map VDict ds) ->
     Forall no_created_at ds ->
     exists memories st',
       GraphitiBackend._parse_nodes_to_memories (VDict result) st = (Ok memories, st') /\
       length memories = length ds /\
       forall i m, memories !! i = Some m ->
                   created_at m = wall_clock (GraphitiBackend.ticks st + i)).
Proof.
  split; [exact parse_memory_no_created_at |].
  split; [exact parse_node_no_created_at |].
  split; [exact dict_get_absent |].
  split.
  - intros result ds st Hget Hds.
    unfold ForgetfulBackend._parse_forgetful_memories, bind, lift. simpl.
    rewrite Hget. simpl. apply parse_memories_no_created_at, Hds.
  - intros result ds st Hget Hds.
    unfold GraphitiBackend._parse_nodes_to_memories, bind, lift. simpl.
    rewrite Hget. simpl. apply parse_nodes_no_created_at, Hds.
Qed.

End ParsingSpec.
End ParsingSpec.

(** ** What the operations hand back from the service *)

Module RelaySpec.
Section RelaySpec.
Context {RT : PyRuntime}.
Context {FHost : ForgetfulHost} {GHost : GraphitiHost}.

Lemma dict_get_present d key default default' :
  dict_has d key = true -> dict_get d key default = dict_get d key default'.
Proof.
  induction d as [| [k v] d IH]; simpl; [discriminate |].
  destruct (String.eqb k key); [reflexivity | exact IH].
Qed.

Lemma parse_memory_record item st m st' :
  ForgetfulBackend.parse_memory item st = (Ok m, st') -> record_memory item m.
Proof.
  unfold ForgetfulBackend.parse_memory, bind, lift, ForgetfulBackend.now, ret.
  destruct item as [| | | | | | d]; simpl; try discriminate.
  destruct (py_fromisoformat _) as [t | e] eqn:Hparse; [| discriminate].
  intros [= <- _]. exists d. split; [reflexivity |]. simpl.
  intros Hhas. rewrite <- Hparse. f_equal. apply dict_get_present, Hhas.
Qed.

Lemma parse_node_record item st m st' :
  GraphitiBackend.parse_node item st = (Ok m, st') -> record_memory item m.
Proof.
  unfold GraphitiBackend.parse_node, bind, lift, GraphitiBackend.now, ret.
  destruct item as [| | | | | | d]; simpl; try discriminate.
  destruct (py_fromisoformat _) as [t | e] eqn:Hparse; [| discriminate].
  intros [= <- _]. exists d. split; [reflexivity |]. simpl.
  intros Hhas. rewrite <- Hparse. f_equal. apply dict_get_present, Hhas.
Qed.

Lemma parse_episode_record item st m st' :
  GraphitiBackend.parse_episode item st = (Ok m, st') -> record_memory item m.
Proof.
  unfold GraphitiBackend.parse_episode, bind, lift, GraphitiBackend.now, ret.
  destruct item as [| | | | | | d]; simpl; try discriminate.
  destruct (py_fromisoformat _) as [t | e] eqn:Hparse; [| discriminate].
  intros [= <- _]. exists d. split; [reflexivity |]. simpl.
  intros Hhas. rewrite <- Hparse. f_equal. apply dict_get_present, Hhas.
Qed.

(** A parser that returns has made one memory per record of the
    result, in the order of the records. *)
Lemma parse_forgetful_records result st memories st' :
  ForgetfulBackend._parse_forgetful_memories result st = (Ok memories, st') ->
  exists items, items_of result "memories" = Ok items /\
                Forall2 record_memory items memories.
Proof.
  unfold ForgetfulBackend._parse_forgetful_memories, items_of. intros Hrun.
  apply bind_inv in Hrun as (v & st1 & Hv & Hrun). apply lift_inv in Hv as [-> ->].
  apply bind_inv in Hrun as (items & st2 & Hitems & Hrun).
  apply lift_inv in Hitems as [Hitems ->].
  exists items. split; [exact Hitems |].
  eapply for_each_inv; [| exact Hrun]. apply parse_memory_record.
Qed.

Lemma parse_nodes_records result st memories st' :
  GraphitiBackend._parse_nodes_to_memories result st = (Ok memories, st') ->
  exists items, items_of result "nodes" = Ok items /\
                Forall2 record_memory items memories.
Proof.
  unfold GraphitiBackend._parse_nodes_to_memories, items_of. intros Hrun.
  apply bind_inv in Hrun as (v & st1 & Hv & Hrun). apply lift_inv in Hv as [-> ->].
  apply bind_inv in Hrun as (items & st2 & Hitems & Hrun).
  apply lift_inv in Hitems as [Hitems ->].
  exists items. split; [exact Hitems |].
  eapply for_each_inv; [| exact Hrun]. apply parse_node_record.
Qed.

Lemma parse_episodes_records result st memories st' :
  GraphitiBackend._parse_episodes_to_memories result st = (Ok memories, st') ->
  exists items, items_of result "episodes" = Ok items /\
                Forall2 record_memory items memories.
Proof.
  unfold GraphitiBackend._parse_episodes_to_memories, items_of. intros Hrun.
  apply bind_inv in Hrun as (v & st1 & Hv & Hrun). apply lift_inv in Hv as [-> ->].
  apply bind_inv in Hrun as (items & st2 & Hitems & Hrun).
  apply lift_inv in Hitems as [Hitems ->].
  exists items. split; [exact Hitems |].
  eapply for_each_inv; [| exact Hrun]. apply parse_episode_record.
Qed.

(** An external call that returns: the service was given the arguments
    and answered [result]. *)
Lemma forgetful_invoke_inv tool args st result st' :
  ForgetfulBackend.invoke tool args st = (Ok result, st') ->
  exists w',
    execute_forgetful_tool tool (VDict args) (ForgetfulBackend.world st) = (Ok result, w') /\
    ForgetfulBackend.ticks st' = ForgetfulBackend.ticks st.
Proof.
  unfold ForgetfulBackend.invoke.
  destruct (execute_forgetful_tool tool (VDict args) (ForgetfulBackend.world st))
    as [r w'].
  intros [= -> <-]. exists w'. split; reflexivity.
Qed.

Lemma graphiti_invoke_inv tool args st result st' :
  GraphitiBackend.invoke tool args st = (Ok result, st') ->
  exists f w',
    graphiti_tool tool = Some f /\
    f (VDict args) (GraphitiBackend.world st) = (Ok result, w').
Proof.
  unfold GraphitiBackend.invoke.
  destruct (graphiti_tool tool) as [f |]; [| discriminate].
  destruct (f (VDict args) (GraphitiBackend.world st)) as [r w'] eqn:Hcall.
  intros [= -> <-]. exists f, w'. split; [reflexivity | exact Hcall].
Qed.

Lemma check_mcp_available_inv st u st' :
  GraphitiBackend._check_mcp_available st = (Ok u, st') -> st' = st.
Proof.
  unfold GraphitiBackend._check_mcp_available.
  destruct (graphiti_tool "get_status"); [| discriminate].
  intros [= _ <-]. reflexivity.
Qed.

(** C8, as the code has it.  [query] passes the limit on to the service
    ([k] for Forgetful, [max_nodes] for Graphiti) and returns one memory
    per record of the answer: as many memories as the answer has
    records, however that number compares with the limit. *)
Theorem query_relays_records :
  (forall text gid limit st memories st',
     ForgetfulBackend.query text gid limit st = (Ok memories, st') ->
     exists pid st1 result w items,
       ForgetfulBackend._group_to_project_id gid st = (Ok pid, st1) /\
       execute_forgetful_tool "query_memory"
         (VDict (ForgetfulBackend.query_memory_args text pid limit))
         (ForgetfulBackend.world st1) = (Ok result, w) /\
       items_of result "memories" = Ok items /\
       length memories = length items) /\
  (forall text gid limit st memories st',
     GraphitiBackend.query text gid limit st = (Ok memories, st') ->
     exists search result w items,
       graphiti_tool "search_nodes" = Some search /\
       search (VDict (GraphitiBackend.search_nodes_args text gid limit))
         (GraphitiBackend.world st) = (Ok result, w) /\
       items_of result "nodes" = Ok items /\
       length memories = length items).
Proof.
  split.
  - intros text gid limit st memories st' Hrun. unfold ForgetfulBackend.query in Hrun.
    apply bind_inv in Hrun as (pid & st1 & Hpid & Hrun).
    apply bind_inv in Hrun as (result & st2 & Hcall & Hrun).
    apply forgetful_invoke_inv in Hcall as (w & Hcall & _).
    apply parse_forgetful_records in Hrun as (items & Hitems & Hrec).
    exists pid, st1, result, w, items.
    repeat split; try assumption. symmetry. eapply Forall2_length, Hrec.
  - intros text gid limit st memories st' Hrun. unfold GraphitiBackend.query in Hrun.
    apply bind_inv in Hrun as (u & st1 & Hcheck & Hrun).
    apply check_mcp_available_inv in Hcheck as ->.
    apply bind_inv in Hrun as (result & st2 & Hcall & Hrun).
    apply graphiti_invoke_inv in Hcall as (search & w & Htool & Hcall).
    apply parse_nodes_records in Hrun as (items & Hitems & Hrec).
    exists search, result, w, items.
    repeat split; try assumption. symmetry. eapply Forall2_length, Hrec.
Qed.

(** C7, as the code has it.  [list_recent] passes the limit on to the
    service (Forgetful: [limit], with [sort_by = created_at] and
    [sort_order = desc]; Graphiti: [max_episodes]) and returns one
    memory per record of the answer, in the order of the answer, each
    with the timestamp of its record: it has at most [limit] memories,
    newest first, when the answer has. *)
Theorem list_recent_relays_records :
  (forall gid limit st memories st',
     ForgetfulBackend.list_recent gid limit st = (Ok memories, st') ->
     exists pid st1 result w items,
       ForgetfulBackend._group_to_project_id gid st = (Ok pid, st1) /\
       execute_forgetful_tool "list_memories"
         (VDict [("project_ids", ForgetfulBackend.project_ids_arg pid VNone);
                 ("limit", VInt limit);
                 ("sort_by", VStr "created_at");
                 ("sort_order", VStr "desc")])
         (ForgetfulBackend.world st1) = (Ok result, w) /\
       items_of result "memories" = Ok items /\
       length memories = length items /\
       Forall2 record_memory items memories) /\
  (forall gid limit st memories st',
     GraphitiBackend.list_recent gid limit st = (Ok memories, st') ->
     exists get_episodes result w items,
       graphiti_tool "get_episodes" = Some get_episodes /\
       get_episodes (VDict [("group_ids", VList [VStr gid]); ("max_episodes", VInt limit)])
         (GraphitiBackend.world st) = (Ok result, w) /\
       items_of result "episodes" = Ok items /\
       length memories = length items /\
       Forall2 record_memory items memories).
Proof.
  split.
  - intros gid limit st memories st' Hrun. unfold ForgetfulBackend.list_recent in Hrun.
    apply bind_inv in Hrun as (pid & st1 & Hpid & Hrun).
    apply bind_inv in Hrun as (result & st2 & Hcall & Hrun).
    apply forgetful_invoke_inv in Hcall as (w & Hcall & _).
    apply parse_forgetful_records in Hrun as (items & Hitems & Hrec).
    exists pid, st1, result, w, items.
    repeat split; try assumption. symmetry. eapply Forall2_length, Hrec.
  - intros gid limit st memories st' Hrun. unfold GraphitiBackend.list_recent in Hrun.
    apply bind_inv in Hrun as (u & st1 & Hcheck & Hrun).
    apply check_mcp_available_inv in Hcheck as ->.
    apply bind_inv in Hrun as (result & st2 & Hcall & Hrun).
    apply graphiti_invoke_inv in Hcall as (get_episodes & w & Htool & Hcall).
    apply parse_episodes_records in Hrun as (items & Hitems & Hrec).
    exists get_episodes, result, w, items.
    repeat split; try assumption. symmetry. eapply Forall2_length, Hrec.
Qed.

(** C10. When the answer to the save call is a mapping with none of
    the id keys ([memory_id] and [id] for Forgetful, [episode_id] and
    [uuid] for Graphiti), [save] does not raise and returns the string
    "unknown". *)
Theorem save_without_id_key :
  (forall content_ gid kwargs st pid st1 answer w,
     ForgetfulBackend._group_to_project_id gid st = (Ok pid, st1) ->
     execute_forgetful_tool "create_memory"
       (VDict (ForgetfulBackend.create_memory_args content_ kwargs pid))
       (ForgetfulBackend.world st1) = (Ok (VDict answer), w) ->
     dict_has answer "memory_id" = false ->
     dict_has answer "id" = false ->
     exists st', ForgetfulBackend.save content_ gid kwargs st = (Ok "unknown", st')) /\
  (forall content_ gid kwargs st get_status add_memory answer w,
     graphiti_tool "get_status" = Some get_status ->
     graphiti_tool "add_memory" = Some add_memory ->
     add_memory (VDict (GraphitiBackend.add_memory_args content_ gid kwargs))
       (GraphitiBackend.world st) = (Ok (VDict answer), w) ->
     dict_has answer "episode_id" = false ->
     dict_has answer "uuid" = false ->
     exists st',
       GraphitiBackend.save content_ gid kwargs st = (Ok (VStr "unknown"), st')).
Proof.
  split.
  - intros content_ gid kwargs st pid st1 answer w Hpid Hcall Hmid Hid.
    unfold ForgetfulBackend.save. rewrite (bind_ok _ _ _ _ _ Hpid).
    unfold bind, ForgetfulBackend.invoke, lift, ret. rewrite Hcall. simpl.
    rewrite (dict_get_absent answer "id" _ Hid).
    rewrite (dict_get_absent answer "memory_id" _ Hmid).
    eexists. reflexivity.
  - intros content_ gid kwargs st get_status add_memory answer w Hstatus Hadd Hcall Heid Huuid.
    unfold GraphitiBackend.save, GraphitiBackend._check_mcp_available,
      bind, GraphitiBackend.invoke, lift, ret.
    rewrite Hstatus, Hadd, Hcall. simpl.
    rewrite (dict_get_absent answer "uuid" _ Huuid).
    rewrite (dict_get_absent answer "episode_id" _ Heid).
    eexists. reflexivity.
Qed.

(** C9. [GraphitiBackend.explore] does not look at [depth]: from one
    state, any two depths give the same outcome, which is that of
    [query] with limit 10 followed by [search_facts] with limit 20. *)
Theorem graphiti_explore_ignores_depth (starting_point gid : string) (d1 d2 : Z)
    (st : GraphitiBackend.State) :
  GraphitiBackend.explore starting_point gid d1 st =
  GraphitiBackend.explore starting_point gid d2 st /\
  GraphitiBackend.explore starting_point gid d1 st =
  match GraphitiBackend.query starting_point gid 10 st with
  | (Raise e, st1) => (Raise e, st1)
  | (Ok found, st1) =>
      match GraphitiBackend.search_facts starting_point gid 20 st1 with
      | (Raise e, st2) => (Raise e, st2)
      | (Ok facts, st2) => (Ok {| nodes := found; edges := facts |}, st2)
      end
  end.
Proof.
  split; [reflexivity |].
  unfold GraphitiBackend.explore, bind, ret.
  destruct (GraphitiBackend.query starting_point gid 10 st) as [[found | e] st1];
    [| reflexivity].
  destruct (GraphitiBackend.search_facts starting_point gid 20 st1) as [[facts | e] st2];
    reflexivity.
Qed.

(** *** Discovery *)

Lemma lookup_op_absent ops operation :
  ~ In operation (map fst ops) -> GraphitiBackend.lookup_op ops operation = None.
Proof.
  induction ops as [| [k spec] ops IH]; simpl; intros Hnot; [reflexivity |].
  destruct (String.eqb k operation) eqn:Heq.
  - apply String.eqb_eq in Heq. tauto.
  - apply IH. tauto.
Qed.

(** [GraphitiBackend] rejects every name that is not a key of
    [OPERATIONS]. *)
Lemma graphiti_unknown_operation operation :
  ~ In operation (map fst GraphitiBackend.OPERATIONS) ->
  GraphitiBackend.get_schema operation =
    Raise (ValueError ("Unknown operation: " +:+ operation)) /\
  GraphitiBackend.get_examples operation =
    Raise (ValueError ("Unknown operation: " +:+ operation)).
Proof.
  intros Hnot. unfold GraphitiBackend.get_schema, GraphitiBackend.get_examples.
  rewrite (lookup_op_absent _ _ Hnot). split; reflexivity.
Qed.

(** C4, where the code departs from it.  [ForgetfulBackend.get_schema]
    and [get_examples] return a value for every name; for "bogus",
    which is none of the names [get_capabilities] lists, they return a
    schema and an example made from the name. *)
Theorem forgetful_discovery_never_raises :
  (forall operation,
     ForgetfulBackend.get_schema operation =
       Ok (VDict [("description", VStr ("Schema for " +:+ operation));
                  ("params", VDict [])]) /\
     ForgetfulBackend.get_examples operation =
       Ok ["memory." +:+ operation +:+ "(...)"]) /\
  ~ In "bogus" (map name ForgetfulBackend.capabilities) /\
  ForgetfulBackend.get_schema "bogus" =
    Ok (VDict [("description", VStr "Schema for bogus"); ("params", VDict [])]) /\
  ForgetfulBackend.get_examples "bogus" = Ok ["memory.bogus(...)"].
Proof.
  split; [intros operation; split; reflexivity |].
  split; [| split; reflexivity].
  simpl. intros [Heq | [Heq | [Heq | []]]]; discriminate.
Qed.

End RelaySpec.
End RelaySpec.

(** ** The fixtures satisfy what the statements assume *)

Module FixtureFacts.
Import Fixtures ForgetfulBackend.

Lemma epoch_runtime_laws : @PyRuntimeLaws epoch_runtime.
Proof.
  constructor. intros t. simpl.
  rewrite NilEmpty.usu. simpl. f_equal. apply DecimalNat.Unsigned.of_to.
Qed.

(** The lookup service resolves the id of every memory of its graph. *)
Lemma lookup_host_resolves g gid text links :
  links_of g text = Some links ->
  @resolves epoch_runtime (lookup_host g) gid text text (map VStr links).
Proof.
  intros Hlinks st. unfold query, _group_to_project_id, bind at 1.
  destruct (_project_cache st !! gid) as [project_id |] eqn:Hcache.
  - unfold ret, bind, invoke. simpl. rewrite Hlinks.
    eexists _, _. split; [reflexivity |]. split; reflexivity.
  - unfold ret, bind, lift, invoke, cache_store. simpl. rewrite Hlinks.
    eexists _, _. split; [reflexivity |]. split; reflexivity.
Qed.

(** The runs of the claims' scenarios on the fixtures. *)


Lemma explore_fixture_tree_witness :
  exists g st',
    explore (RT := epoch_runtime) (Host := lookup_host tree_graph)
      5 "root" "ns" 2 (init (Host := lookup_host tree_graph) tt) = Some (Ok g, st') /\
    map id (nodes g) = [VStr "root"; VStr "a"; VStr "b"; VStr "c"] /\
    map endpoints (edges g) =
      [(VStr "root", VStr "a"); (VStr "root", VStr "b"); (VStr "a", VStr "c")].
Proof.
  destruct (ExploreSpec.explore_fixture_tree (RT := epoch_runtime)
              (Host := lookup_host tree_graph) "ns" [] (init (Host := lookup_host tree_graph) tt)
              (lookup_host_resolves tree_graph "ns" "root" ["a"; "b"] eq_refl)
              (lookup_host_resolves tree_graph "ns" "a" ["c"] eq_refl)
              (lookup_host_resolves tree_graph "ns" "b" [] eq_refl)
              (lookup_host_resolves tree_graph "ns" "c" [] eq_refl)
              0%nat)
    as (g & st' & Hrun & Hnodes & _ & Hedges).
  exists g, st'. split; [exact Hrun |]. split; [exact Hnodes | exact (Hedges eq_refl)].
Defined.

(** *** Limits the services do not honour *)

(** C8 fails as stated: asked for 5 memories of a service that holds 7
    and returns them all, [query] returns 7. *)
Lemma query_exceeds_limit :
  (exists memories st',
      query (RT := epoch_runtime) (Host := store_host seeded_store)
        "authentication" "ns" 5 (init (Host := store_host seeded_store) []) =
        (Ok memories, st') /\
      length memories = 7%nat) /\
  ~ query_bounded (RT := epoch_runtime) (Host := store_host seeded_store).
Proof.
  split.
  - eexists _, _. split; reflexivity.
  - intros Hbound.
    pose proof (Hbound "authentication" "ns" 5
                  (init (Host := store_host seeded_store) []) _ _ eq_refl eq_refl)
      as Hlen.
    vm_compute in Hlen. apply Hlen. reflexivity.
Qed.

(** C7 fails as stated: asked for the 2 most recent memories of a
    service that returns its 3 memories in stored order, [list_recent]
    returns the 3, with timestamps 10, 30, 20. *)
Lemma list_recent_exceeds_limit :
  (exists memories st',
      list_recent (RT := epoch_runtime) (Host := store_host unsorted_store)
        "ns" 2 (init (Host := store_host unsorted_store) []) = (Ok memories, st') /\
      map created_at memories = [10; 30; 20]%nat) /\
  ~ list_recent_bounded_sorted (RT := epoch_runtime) (Host := store_host unsorted_store).
Proof.
  split.
  - eexists _, _. split; reflexivity.
  - intros Hbound.
    destruct (Hbound "ns" 2 (init (Host := store_host unsorted_store) []) _ _
                eq_refl eq_refl) as [Hlen _].
    vm_compute in Hlen. apply Hlen. reflexivity.
Qed.

(** *** The other statements, run on the fixtures *)

(** A first [save] in the namespace "ns" of a service with no project:
    the project is created once and gets the id 1. *)
Lemma namespace_resolved_once_witness :
  let host := store_host [] in
  let st := init (Host := host) [] in
  (exists new, calls (snd (_group_to_project_id "ns" st)) =
               calls st ++ new /\
               (count_calls "create_project" new <= 1)%nat) /\
  fst (_group_to_project_id "ns" st) = Ok (VInt 1).
Proof.
  intros host st.
  destruct (ForgetfulSpec.namespace_resolved_once (RT := epoch_runtime) (Host := host)
              "ns" (VInt 1) st
              (snd (_group_to_project_id "ns" st))
              eq_refl eq_refl) as (Hcalls & _).
  split; [exact Hcalls | reflexivity].
Defined.

(** A Forgetful record that only has an id. *)
Lemma parse_without_created_at_witness :
  parse_memory (RT := epoch_runtime) (Host := store_host [])
    (VDict [("id", VInt 42)]) (init (Host := store_host []) []) =
  (Ok (Build_Memory (RT := epoch_runtime) (VStr "42") (VStr EmptyString) 1000%nat VNone
         [("title", VStr EmptyString); ("keywords", VList []);
          ("tags", VList []); ("linked_memory_ids", VList [])]),
   tick (init (Host := store_host []) [])).
Proof.
  apply (proj1 (ParsingSpec.parse_without_created_at (RT := epoch_runtime)
                  (Laws := epoch_runtime_laws) (FHost := store_host [])
                  (GHost := graphiti_stub [] [] []))).
  reflexivity.
Defined.

Lemma query_relays_records_witness :
  exists items,
    items_of (VDict [("memories", VList seeded_store)]) "memories" = Ok items /\
    length items = 7%nat.
Proof.
  destruct (proj1 (RelaySpec.query_relays_records (RT := epoch_runtime)
                     (FHost := store_host seeded_store)
                     (GHost := graphiti_stub [] [] []))
              "authentication" "ns" 5 (init (Host := store_host seeded_store) [])
              _ _ eq_refl)
    as (pid & st1 & result & w & items & Hpid & Hcall & Hitems & Hlen).
  injection Hpid as <- <-. injection Hcall as <- _.
  exists items. split; [exact Hitems | symmetry; exact Hlen].
Defined.

Lemma list_recent_relays_records_witness :
  exists items,
    items_of (VDict [("memories", VList unsorted_store)]) "memories" = Ok items /\
    length items = 3%nat.
Proof.
  destruct (proj1 (RelaySpec.list_recent_relays_records (RT := epoch_runtime)
                     (FHost := store_host unsorted_store)
                     (GHost := graphiti_stub [] [] []))
              "ns" 2 (init (Host := store_host unsorted_store) [])
              _ _ eq_refl)
    as (pid & st1 & result & w & items & Hpid & Hcall & Hitems & Hlen & _).
  injection Hpid as <- <-. injection Hcall as <- _.
  exists items. split; [exact Hitems | symmetry; exact Hlen].
Defined.

(** Both fixture services answer a save with an empty mapping. *)
Lemma save_without_id_key_witness :
  (exists st',
      save (RT := epoch_runtime) (Host := store_host [])
        "Decision: JWT auth" "ns" [("title", VStr "Auth")]
        (init (Host := store_host []) []) = (Ok "unknown", st')) /\
  (exists st',
      GraphitiBackend.save (Host := graphiti_stub [] [] [])
        "Decision: JWT auth" "ns" [("title", VStr "Auth")]
        (GraphitiBackend.start (Host := graphiti_stub [] [] []) tt) =
        (Ok (VStr "unknown"), st')).
Proof.
  split.
  - eapply (proj1 (RelaySpec.save_without_id_key (RT := epoch_runtime)
                     (FHost := store_host []) (GHost := graphiti_stub [] [] [])));
      reflexivity.
  - eapply (proj2 (RelaySpec.save_without_id_key (RT := epoch_runtime)
                     (FHost := store_host []) (GHost := graphiti_stub [] [] [])));
      reflexivity.
Defined.

End FixtureFacts.

(** ** More on Python values *)

Lemma value_eqb_sound : forall a b, value_eqb a b = true -> a = b.
Proof.
  fix IH 1.
  intros [| b | n | n | s | items | d] [| b' | n' | n' | s' | items' | d'];
    simpl; try discriminate; intros Heq.
  - reflexivity.
  - f_equal. destruct b, b'; simpl in Heq; congruence.
  - f_equal. apply Z.eqb_eq, Heq.
  - f_equal. apply Z.eqb_eq, Heq.
  - f_equal. apply String.eqb_eq, Heq.
  - f_equal. revert items' Heq.
    induction items as [| x xs IHxs]; intros [| y ys] Heq; try discriminate;
      [reflexivity |].
    apply andb_prop in Heq as [Hxy Hrest]. f_equal; [apply IH, Hxy | apply IHxs, Hrest].
  - f_equal. revert d' Heq.
    induction d as [| [k x] xs IHxs]; intros [| [k' y] ys] Heq; try discriminate;
      [reflexivity |].
    apply andb_prop in Heq as [Hhead Hrest].
    apply andb_prop in Hhead as [Hk Hxy].
    apply String.eqb_eq in Hk. f_equal; [f_equal; [exact Hk | apply IH, Hxy] |].
    apply IHxs, Hrest.
Qed.

(** ** More on ForgetfulBackend.explore and search_facts *)

Module TraversalSpec.
Section TraversalSpec.
Context {RT : PyRuntime} {Host : ForgetfulHost}.
Import ForgetfulBackend.

(** Whatever the service answers, the nodes of the graph [explore]
    returns have pairwise distinct ids. *)
Theorem explore_ids_distinct fuel start gid depth st g st' :
  explore fuel start gid depth st = Some (Ok g, st') ->
  NoDup (map id (nodes g)).
Proof.
  apply ExploreSpec.explore_loop_ok. split; simpl; [reflexivity | constructor].
Qed.

(** *** The edges are the links of the nodes *)

Lemma facts_of_snoc memories m linked_ids relationships :
  facts_of memories = Ok relationships ->
  py_iter (dict_get (metadata m) "linked_memory_ids" (VList [])) = Ok linked_ids ->
  facts_of (memories ++ [m]) = Ok (relationships ++ map (linked_to m) linked_ids).
Proof.
  revert relationships.
  induction memories as [| m0 rest IH]; simpl; intros relationships Hfacts Hlinks.
  - injection Hfacts as <-. rewrite Hlinks, app_nil_r. reflexivity.
  - destruct (py_iter (dict_get (metadata m0) _ _)) as [ls0 | e]; [| discriminate Hfacts].
    destruct (facts_of rest) as [rs | e]; [| discriminate Hfacts].
    injection Hfacts as <-.
    rewrite (IH rs eq_refl Hlinks), app_assoc. reflexivity.
Qed.

Lemma facts_of_In memories relationships e :
  facts_of memories = Ok relationships ->
  In e relationships ->
  exists m linked_id, In m memories /\ e = linked_to m linked_id.
Proof.
  revert relationships.
  induction memories as [| m0 rest IH]; simpl; intros relationships Hfacts Hin.
  - injection Hfacts as <-. destruct Hin.
  - destruct (py_iter _) as [ls0 | err]; [| discriminate Hfacts].
    destruct (facts_of rest) as [rs | err]; [| discriminate Hfacts].
    injection Hfacts as <-. apply in_app_or in Hin as [Hin | Hin].
    + apply in_map_iff in Hin as (l & <- & _). exists m0, l. auto.
    + destruct (IH rs eq_refl Hin) as (m & l & Hm & ->). exists m, l. auto.
Qed.

Lemma visit_memories_facts depth d memories :
  forall fr fr',
    facts_of (nodes_ fr) = Ok (edges_ fr) ->
    visit_memories depth d memories fr = Ok fr' ->
    facts_of (nodes_ fr') = Ok (edges_ fr').
Proof.
  induction memories as [| m rest IH]; simpl; intros fr fr' Hinv Hrun.
  - injection Hrun as <-. exact Hinv.
  - destruct (id_in (id m) (visited fr)); [eapply IH; eauto |].
    destruct (py_iter _) as [linked_ids | e] eqn:Hlinks; [| discriminate Hrun].
    eapply IH; [| exact Hrun].
    rewrite ExploreSpec.follow_links_spec. simpl.
    apply facts_of_snoc; assumption.
Qed.

Lemma explore_loop_facts fuel gid depth :
  forall fr st g st',
    facts_of (nodes_ fr) = Ok (edges_ fr) ->
    explore_loop fuel gid depth fr st = Some (Ok g, st') ->
    facts_of (nodes g) = Ok (edges g).
Proof.
  induction fuel as [| fuel IH]; simpl; intros fr st g st' Hinv Hrun; [discriminate |].
  destruct (queue fr) as [| [text d] rest] eqn:Hq.
  - injection Hrun as <- _. exact Hinv.
  - destruct (d >? depth).
    + injection Hrun as <- _. exact Hinv.
    + destruct (query text gid 5 st) as [[memories | e] st1]; [| discriminate].
      destruct (visit_memories _ _ _ _) as [fr1 | e] eqn:Hvisit; [| discriminate].
      eapply IH; [| exact Hrun].
      eapply visit_memories_facts; [| exact Hvisit]. exact Hinv.
Qed.

(** At every depth, the edges of the graph [explore] returns are the
    links of its nodes, node after node, as [search_facts] derives them
    from memories; so every edge is a "linked_to" relationship with no
    metadata that starts at a node of the graph. *)
Theorem explore_edges_of_nodes fuel start gid depth st g st' :
  explore fuel start gid depth st = Some (Ok g, st') ->
  facts_of (nodes g) = Ok (edges g) /\
  forall e, In e (edges g) ->
    relation_type e = VStr "linked_to" /\
    rel_metadata e = [] /\
    exists m, In m (nodes g) /\ source e = id m.
Proof.
  intros Hrun.
  assert (facts_of (nodes g) = Ok (edges g)) as Hfacts.
  { eapply explore_loop_facts; [| exact Hrun]. reflexivity. }
  split; [exact Hfacts |].
  intros e Hin. destruct (facts_of_In _ _ _ Hfacts Hin) as (m & l & Hm & ->).
  split; [reflexivity |]. split; [reflexivity |]. exists m. auto.
Qed.

(** With a negative depth [explore] returns the empty graph at the
    first loop test: no query is made and the state is left as it
    was. *)
Theorem explore_negative_depth start gid depth st extra :
  depth < 0 ->
  explore (1 + extra) start gid depth st =
  Some (Ok {| nodes := []; edges := [] |}, st).
Proof.
  intros Hneg. unfold explore, explore_start. simpl.
  assert ((0 >? depth) = true) as -> by (apply Z.gtb_lt; lia).
  reflexivity.
Qed.

(** A memory whose [linked_memory_ids] cannot be iterated (a JSON null,
    a number) makes both [explore] and [search_facts] raise, right
    after the query that returned it. *)
Theorem links_not_iterable start gid depth st m rest st1 e extra :
  0 <= depth ->
  query start gid 5 st = (Ok (m :: rest), st1) ->
  py_iter (dict_get (metadata m) "linked_memory_ids" (VList [])) = Raise e ->
  explore (1 + extra) start gid depth st = Some (Raise e, st1) /\
  search_facts start gid 5 st = (Raise e, st1).
Proof.
  intros Hdepth Hquery Hlinks. split.
  - unfold explore, explore_start. simpl.
    assert ((0 >? depth) = false) as -> by (rewrite Z.gtb_ltb; apply Z.ltb_ge; lia).
    rewrite Hquery. simpl. rewrite Hlinks. reflexivity.
  - unfold search_facts. rewrite (bind_ok _ _ _ _ _ Hquery).
    unfold lift. simpl. rewrite Hlinks. reflexivity.
Qed.

(** *** [explore] at depth 0 and [search_facts] *)

Lemma visit_memories_fresh depth d memories :
  forall fr,
    NoDup (map id memories) ->
    (forall m, In m memories -> ~ In (id m) (visited fr)) ->
    depth <= d ->
    visit_memories depth d memories fr =
    match facts_of memories with
    | Raise e => Raise e
    | Ok relationships =>
        Ok {| visited := rev (map id memories) ++ visited fr;
              nodes_ := nodes_ fr ++ memories;
              edges_ := edges_ fr ++ relationships;
              queue := queue fr |}
    end.
Proof.
  induction memories as [| m rest IH]; simpl; intros fr Hnd Hfresh Hd.
  - rewrite !app_nil_r. destruct fr; reflexivity.
  - apply NoDup_cons in Hnd as [Hm Hnd].
    assert (id_in (id m) (visited fr) = false) as ->.
    { unfold id_in. apply not_true_is_false. intros Hex.
      apply existsb_exists in Hex as (x & Hx & Heq).
      apply (Hfresh m); [auto |].
      rewrite (value_eqb_sound _ _ Heq). exact Hx. }
    destruct (py_iter _) as [linked_ids | e]; [| reflexivity].
    rewrite ExploreSpec.follow_links_spec, IH; simpl.
    + rewrite ExploreSpec.enqueued_at_depth by exact Hd.
      destruct (facts_of rest) as [rs | e]; [| reflexivity].
      rewrite app_nil_r, <- !app_assoc. reflexivity.
    + exact Hnd.
    + intros m' Hin [Heq | Hold].
      * apply Hm. rewrite list_elem_of_In, Heq. apply in_map, Hin.
      * apply (Hfresh m'); auto.
    + exact Hd.
Qed.

(** When the memories a query returns have distinct ids, [explore] at
    depth 0 returns them all as nodes, with the relationships
    [search_facts] returns for the same query as edges; and one raises
    when the other does. *)
Theorem explore_depth_zero_search_facts start gid st memories st1 extra :
  query start gid 5 st = (Ok memories, st1) ->
  NoDup (map id memories) ->
  search_facts start gid 5 st = (facts_of memories, st1) /\
  explore (2 + extra) start gid 0 st =
  Some (match facts_of memories with
        | Raise e => Raise e
        | Ok relationships => Ok {| nodes := memories; edges := relationships |}
        end, st1).
Proof.
  intros Hquery Hnd. split.
  - unfold search_facts. rewrite (bind_ok _ _ _ _ _ Hquery). reflexivity.
  - unfold explore, explore_start. simpl. rewrite Hquery.
    rewrite visit_memories_fresh; simpl; [| exact Hnd | tauto | lia].
    destruct (facts_of memories) as [relationships | e]; reflexivity.
Qed.

End TraversalSpec.
End TraversalSpec.

(** ** More on namespace resolution *)

Module ResolutionSpec.
Section ResolutionSpec.
Context {RT : PyRuntime} {Host : ForgetfulHost}.
Import ForgetfulBackend.

Lemma py_eq_str_true v s : py_eq_str v s = true <-> v = VStr s.
Proof.
  destruct v; simpl; try (split; [discriminate | intros [=]]).
  rewrite String.eqb_eq. split; [intros -> | intros [= ->]]; reflexivity.
Qed.

Lemma py_eq_str_false v s : v <> VStr s -> py_eq_str v s = false.
Proof.
  intros Hne. apply not_true_is_false. rewrite py_eq_str_true. exact Hne.
Qed.

Lemma find_project_first gid before p after :
  Forall (other_project gid) before ->
  dict_get p "name" VNone = VStr gid ->
  find_project gid (before ++ VDict p :: after) = Ok (Some (dict_get p "id" VNone)).
Proof.
  intros Hbefore Hname.
  induction Hbefore as [| item before (d & -> & Hother) _ IH]; simpl.
  - rewrite Hname. simpl. rewrite String.eqb_refl. reflexivity.
  - rewrite (py_eq_str_false _ _ Hother). exact IH.
Qed.

Lemma find_project_none gid items :
  Forall (other_project gid) items -> find_project gid items = Ok None.
Proof.
  induction 1 as [| item items (d & -> & Hother) _ IH]; simpl; [reflexivity |].
  rewrite (py_eq_str_false _ _ Hother). exact IH.
Qed.

Lemma items_of_split result key items :
  items_of result key = Ok items ->
  exists v, py_get result key (VList []) = Ok v /\ py_iter v = Ok items.
Proof.
  unfold items_of. destruct (py_get result key (VList [])) as [v | e]; [eauto | discriminate].
Qed.

(** When the namespace is not cached and a project with its name is
    listed, the resolution returns the id of the first such project,
    caches it, and issues [list_projects] only: nothing is created. *)
Theorem resolve_existing_project gid st result w before p after :
  _project_cache st !! gid = None ->
  execute_forgetful_tool "list_projects" (VDict []) (world st) = (Ok result, w) ->
  items_of result "projects" = Ok (before ++ VDict p :: after) ->
  Forall (other_project gid) before ->
  dict_get p "name" VNone = VStr gid ->
  exists st1,
    _group_to_project_id gid st = (Ok (dict_get p "id" VNone), st1) /\
    _project_cache st1 = <[gid := dict_get p "id" VNone]> (_project_cache st) /\
    world st1 = w /\
    calls st1 = calls st ++ [("list_projects", VDict [])].
Proof.
  intros Hmiss Hlist Hitems Hbefore Hname.
  apply items_of_split in Hitems as (v & Hget & Hiter).
  unfold _group_to_project_id. rewrite Hmiss.
  unfold bind, invoke, lift, cache_store, ret. rewrite Hlist, Hget, Hiter.
  rewrite (find_project_first gid before p after Hbefore Hname).
  eexists. split; [reflexivity |]. simpl. auto.
Qed.

(** When the namespace is not cached and no listed project has its
    name, a project named after the namespace is created; the id is the
    [project_id] of the answer, else its [id], else [None]; it is
    cached, so that a namespace whose creation was answered without an
    id stays resolved to [None]. *)
Theorem resolve_created_project gid st result w items answer w2 :
  _project_cache st !! gid = None ->
  execute_forgetful_tool "list_projects" (VDict []) (world st) = (Ok result, w) ->
  items_of result "projects" = Ok items ->
  Forall (other_project gid) items ->
  execute_forgetful_tool "create_project"
    (VDict [("name", VStr gid);
            ("description", VStr ("Auto-created from group_id: " +:+ gid))]) w =
    (Ok (VDict answer), w2) ->
  let pid := dict_get answer "project_id" (dict_get answer "id" VNone) in
  exists st1,
    _group_to_project_id gid st = (Ok pid, st1) /\
    _project_cache st1 !! gid = Some pid /\
    _group_to_project_id gid st1 = (Ok pid, st1) /\
    (dict_has answer "project_id" = false -> dict_has answer "id" = false ->
     pid = VNone).
Proof.
  intros Hmiss Hlist Hitems Hnone Hcreate pid.
  apply items_of_split in Hitems as (v & Hget & Hiter).
  unfold _group_to_project_id at 1. rewrite Hmiss.
  unfold bind, invoke, lift, cache_store, ret. rewrite Hlist, Hget, Hiter.
  rewrite (find_project_none gid items Hnone). simpl. rewrite Hcreate. simpl.
  eexists. split; [reflexivity |]. simpl.
  split; [apply lookup_insert_eq |]. split.
  - unfold _group_to_project_id. simpl. rewrite lookup_insert_eq. reflexivity.
  - intros Hpid Hid. unfold pid.
    rewrite (dict_get_absent _ _ _ Hpid). apply dict_get_absent, Hid.
Qed.

(** A resolution touches the cache entry of its own namespace only,
    caches the id it returns, and caches nothing when it raises. *)
Theorem resolve_cache_frame gid st r st1 :
  _group_to_project_id gid st = (r, st1) ->
  (forall other, other <> gid ->
     _project_cache st1 !! other = _project_cache st !! other) /\
  (forall pid, r = Ok pid -> _project_cache st1 !! gid = Some pid) /\
  (forall e, r = Raise e -> _project_cache st1 = _project_cache st).
Proof.
  unfold _group_to_project_id.
  destruct (_project_cache st !! gid) as [cached |] eqn:Hcache.
  { intros [= <- <-]. split; [reflexivity |].
    split; [intros pid [= <-]; exact Hcache | reflexivity]. }
  unfold bind, invoke, lift, cache_store, ret.
  destruct (execute_forgetful_tool "list_projects" (VDict []) (world st))
    as [[result | e] w1].
  2:{ intros [= <- <-]. simpl. split; [reflexivity |]. split; [discriminate | reflexivity]. }
  destruct (py_get result "projects" (VList [])) as [projects | e].
  2:{ intros [= <- <-]. simpl. split; [reflexivity |]. split; [discriminate | reflexivity]. }
  destruct (py_iter projects) as [items | e].
  2:{ intros [= <- <-]. simpl. split; [reflexivity |]. split; [discriminate | reflexivity]. }
  destruct (find_project gid items) as [[found |] | e].
  3:{ intros [= <- <-]. simpl. split; [reflexivity |]. split; [discriminate | reflexivity]. }
  - intros [= <- <-]. simpl. split; [| split; [| discriminate]].
    + intros other Hother. apply lookup_insert_ne. congruence.
    + intros pid [= <-]. apply lookup_insert_eq.
  - simpl.
    destruct (execute_forgetful_tool "create_project" _ w1) as [[create_result | e] w2].
    2:{ intros [= <- <-]. simpl. split; [reflexivity |]. split; [discriminate | reflexivity]. }
    destruct (py_get create_result "id" VNone) as [fallback | e].
    2:{ intros [= <- <-]. simpl. split; [reflexivity |]. split; [discriminate | reflexivity]. }
    destruct (py_get create_result "project_id" fallback) as [project_id | e].
    2:{ intros [= <- <-]. simpl. split; [reflexivity |]. split; [discriminate | reflexivity]. }
    intros [= <- <-]. simpl. split; [| split; [| discriminate]].
    + intros other Hother. apply lookup_insert_ne. congruence.
    + intros pid [= <-]. apply lookup_insert_eq.
Qed.

(** *** What the operations send for a resolved namespace *)

Lemma parse_memory_frame item st r st' :
  parse_memory item st = (r, st') ->
  _project_cache st' = _project_cache st /\ world st' = world st /\ calls st' = calls st.
Proof.
  unfold parse_memory, bind, lift, now, ret.
  destruct (py_get item "id" _); [| intros [= _ <-]; auto].
  destruct (py_get item "content" _); [| intros [= _ <-]; auto].
  destruct (py_get item "created_at" _); [| intros [= _ <-]; auto].
  destruct (py_fromisoformat _); [| intros [= _ <-]; auto].
  destruct (py_get item "importance" _); [| intros [= _ <-]; auto].
  destruct (py_get item "title" _); [| intros [= _ <-]; auto].
  destruct (py_get item "keywords" _); [| intros [= _ <-]; auto].
  destruct (py_get item "tags" _); [| intros [= _ <-]; auto].
  destruct (py_get item "linked_memory_ids" _); intros [= _ <-]; auto.
Qed.

Lemma for_each_parse_memory_frame items :
  forall st r st',
    for_each parse_memory items st = (r, st') ->
    _project_cache st' = _project_cache st /\ world st' = world st /\ calls st' = calls st.
Proof.
  induction items as [| item rest IH]; simpl; intros st r st' Hrun.
  - injection Hrun as _ <-. auto.
  - unfold bind at 1 in Hrun.
    destruct (parse_memory item st) as [[m | e] st1] eqn:Hitem.
    2:{ injection Hrun as _ <-. eapply parse_memory_frame, Hitem. }
    apply parse_memory_frame in Hitem as (Hc & Hw & Hl).
    unfold bind at 1 in Hrun.
    destruct (for_each parse_memory rest st1) as [[ms | e] st2] eqn:Hrest.
    + injection Hrun as _ <-. apply IH in Hrest as (Hc' & Hw' & Hl').
      repeat split; congruence.
    + injection Hrun as _ <-. apply IH in Hrest as (Hc' & Hw' & Hl').
      repeat split; congruence.
Qed.

(** Parsing makes no external call and leaves the cache alone. *)
Lemma parse_forgetful_frame result st r st' :
  _parse_forgetful_memories result st = (r, st') ->
  _project_cache st' = _project_cache st /\ world st' = world st /\ calls st' = calls st.
Proof.
  unfold _parse_forgetful_memories, bind at 1, lift at 1.
  destruct (py_get result "memories" (VList [])) as [v | e]; [| intros [= _ <-]; auto].
  unfold bind at 1, lift at 1.
  destruct (py_iter v) as [items | e]; [| intros [= _ <-]; auto].
  apply for_each_parse_memory_frame.
Qed.

(** A project id that Python takes for false (0, [None], the empty
    string) is sent as no project at all: [query] and [list_recent]
    pass [project_ids = None] and [save] passes the empty list. *)
Theorem falsy_project_id_not_sent gid pid st :
  _project_cache st !! gid = Some pid ->
  py_truthy pid = false ->
  (forall text limit, exists r st',
     query text gid limit st = (r, st') /\
     calls st' = calls st ++
       [("query_memory",
         VDict [("query", VStr text); ("project_ids", VNone);
                ("k", VInt limit); ("include_links", VBool true)])]) /\
  (forall limit, exists r st',
     list_recent gid limit st = (r, st') /\
     calls st' = calls st ++
       [("list_memories",
         VDict [("project_ids", VNone); ("limit", VInt limit);
                ("sort_by", VStr "created_at"); ("sort_order", VStr "desc")])]) /\
  (forall content_ kwargs, exists r st',
     save content_ gid kwargs st = (r, st') /\
     In ("project_ids", VList [])
        (create_memory_args content_ kwargs pid) /\
     calls st' = calls st ++
       [("create_memory", VDict (create_memory_args content_ kwargs pid))]).
Proof.
  intros Hhit Hfalsy.
  pose proof (ForgetfulSpec.resolve_cached gid pid st Hhit) as Hresolve.
  split; [| split].
  - intros text limit. unfold query. rewrite (bind_ok _ _ _ _ _ Hresolve).
    unfold query_memory_args, project_ids_arg. rewrite Hfalsy.
    unfold bind at 1, invoke.
    destruct (execute_forgetful_tool _ _ _) as [[result | e] w]; [| eauto].
    destruct (_parse_forgetful_memories result _) as [r st'] eqn:Hparse.
    exists r, st'. split; [reflexivity |].
    apply parse_forgetful_frame in Hparse as (_ & _ & ->). reflexivity.
  - intros limit. unfold list_recent. rewrite (bind_ok _ _ _ _ _ Hresolve).
    unfold list_memories_args, project_ids_arg. rewrite Hfalsy.
    unfold bind at 1, invoke.
    destruct (execute_forgetful_tool _ _ _) as [[result | e] w]; [| eauto].
    destruct (_parse_forgetful_memories result _) as [r st'] eqn:Hparse.
    exists r, st'. split; [reflexivity |].
    apply parse_forgetful_frame in Hparse as (_ & _ & ->). reflexivity.
  - intros content_ kwargs.
    destruct (ForgetfulSpec.save_cached content_ gid kwargs pid st Hhit)
      as (r & st' & Hsave & _ & Hcalls).
    exists r, st'. split; [exact Hsave |]. split; [| exact Hcalls].
    unfold create_memory_args, project_ids_arg. rewrite Hfalsy. simpl. auto.
Qed.

End ResolutionSpec.
End ResolutionSpec.

(** ** More on the parsers *)

Module ParserSpec.
Section ParserSpec.
Context {RT : PyRuntime}.
Context {FHost : ForgetfulHost} {GHost : GraphitiHost}.

Lemma Forall2_In_l {A B} (R : A -> B -> Prop) xs ys x :
  Forall2 R xs ys -> In x xs -> exists y, In y ys /\ R x y.
Proof.
  induction 1 as [| x0 y0 xs ys Hxy _ IH]; simpl; [intros [] |].
  intros [<- | Hin]; [eauto |].
  destruct (IH Hin) as (y & Hy & HR). eauto.
Qed.

Lemma dict_get_has d key default v :
  dict_get d key default = v -> v <> default -> dict_has d key = true.
Proof.
  induction d as [| [k x] d IH]; simpl; [congruence |].
  destruct (String.eqb k key); [reflexivity | exact IH].
Qed.

(** *** Identifiers *)

Lemma parse_memory_id item st m st' :
  ForgetfulBackend.parse_memory item st = (Ok m, st') ->
  exists d, item = VDict d /\ id m = VStr (py_str (dict_get d "id" (VStr EmptyString))).
Proof.
  unfold ForgetfulBackend.parse_memory, bind, lift, ForgetfulBackend.now, ret.
  destruct item as [| | | | | | d]; simpl; try discriminate.
  destruct (py_fromisoformat _) as [t | e]; [| discriminate].
  intros [= <- _]. exists d. split; reflexivity.
Qed.

(** The id of a memory parsed by the Forgetful backend is always a
    string, the [str] of the record's [id]: a numeric id 42 becomes
    "42", an absent one the empty string. *)
Theorem forgetful_ids_are_strings result st memories st' :
  ForgetfulBackend._parse_forgetful_memories result st = (Ok memories, st') ->
  exists items,
    items_of result "memories" = Ok items /\
    Forall2 (fun item m =>
               exists d, item = VDict d /\
                 id m = VStr (py_str (dict_get d "id" (VStr EmptyString))))
            items memories /\
    Forall (fun m => exists s, id m = VStr s) memories.
Proof.
  unfold ForgetfulBackend._parse_forgetful_memories, items_of. intros Hrun.
  apply bind_inv in Hrun as (v & st1 & Hv & Hrun). apply lift_inv in Hv as [-> ->].
  apply bind_inv in Hrun as (items & st2 & Hitems & Hrun).
  apply lift_inv in Hitems as [Hitems ->].
  exists items. split; [exact Hitems |].
  assert (Forall2 (fun item m =>
                     exists d, item = VDict d /\
                       id m = VStr (py_str (dict_get d "id" (VStr EmptyString))))
                  items memories) as Hids.
  { eapply for_each_inv; [| exact Hrun]. apply parse_memory_id. }
  split; [exact Hids |].
  clear -Hids. induction Hids as [| item m items ms (d & _ & Hid) _ IH]; constructor; eauto.
Qed.

(** *** Timestamps *)

(** A record whose [created_at] is the ISO text of a timestamp is
    parsed to a memory with that timestamp, by the three parsers. *)
Theorem created_at_round_trip {Laws : PyRuntimeLaws} d t :
  dict_get d "created_at" VNone = VStr (isoformat t) ->
  (forall st, exists m st',
     ForgetfulBackend.parse_memory (VDict d) st = (Ok m, st') /\ created_at m = t) /\
  (forall st, exists m st',
     GraphitiBackend.parse_node (VDict d) st = (Ok m, st') /\ created_at m = t) /\
  (forall st, exists m st',
     GraphitiBackend.parse_episode (VDict d) st = (Ok m, st') /\ created_at m = t).
Proof.
  intros Hcreated.
  assert (dict_has d "created_at" = true) as Hhas
    by (eapply dict_get_has; [exact Hcreated | discriminate]).
  assert (forall default, py_fromisoformat (dict_get d "created_at" default) = Ok t)
    as Hparse.
  { intros default. rewrite (RelaySpec.dict_get_present d _ default VNone Hhas), Hcreated.
    apply ParsingSpec.py_fromisoformat_now. }
  split; [| split]; intros st.
  - unfold ForgetfulBackend.parse_memory, bind, lift, ForgetfulBackend.now, ret. simpl.
    rewrite Hparse. eexists _, _. split; reflexivity.
  - unfold GraphitiBackend.parse_node, bind, lift, GraphitiBackend.now, ret. simpl.
    rewrite Hparse. eexists _, _. split; reflexivity.
  - unfold GraphitiBackend.parse_episode, bind, lift, GraphitiBackend.now, ret. simpl.
    rewrite Hparse. eexists _, _. split; reflexivity.
Qed.

Lemma bad_record_not_parsed items memories d e :
  Forall2 record_memory items memories ->
  In (VDict d) items ->
  dict_has d "created_at" = true ->
  py_fromisoformat (dict_get d "created_at" VNone) = Raise e ->
  False.
Proof.
  intros Hrec Hin Hhas Hbad.
  destruct (Forall2_In_l _ _ _ _ Hrec Hin) as (m & _ & d' & [= <-] & Hparse).
  rewrite (Hparse Hhas) in Hbad. discriminate.
Qed.

(** One record whose [created_at] is present but is not the text of a
    timestamp (a JSON null, a number, another string) makes the parser
    raise: no memory of the result is returned. *)
Theorem bad_created_at_loses_result result items d e :
  In (VDict d) items ->
  dict_has d "created_at" = true ->
  py_fromisoformat (dict_get d "created_at" VNone) = Raise e ->
  (items_of result "memories" = Ok items ->
   forall st, exists e' st',
     ForgetfulBackend._parse_forgetful_memories result st = (Raise e', st')) /\
  (items_of result "nodes" = Ok items ->
   forall st, exists e' st',
     GraphitiBackend._parse_nodes_to_memories result st = (Raise e', st')) /\
  (items_of result "episodes" = Ok items ->
   forall st, exists e' st',
     GraphitiBackend._parse_episodes_to_memories result st = (Raise e', st')).
Proof.
  intros Hin Hhas Hbad. split; [| split]; intros Hitems st.
  - destruct (ForgetfulBackend._parse_forgetful_memories result st)
      as [[memories | e'] st'] eqn:Hrun; [| eauto].
    apply RelaySpec.parse_forgetful_records in Hrun as (items' & Hitems' & Hrec).
    rewrite Hitems in Hitems'. injection Hitems' as <-.
    destruct (bad_record_not_parsed _ _ _ _ Hrec Hin Hhas Hbad).
  - destruct (GraphitiBackend._parse_nodes_to_memories result st)
      as [[memories | e'] st'] eqn:Hrun; [| eauto].
    apply RelaySpec.parse_nodes_records in Hrun as (items' & Hitems' & Hrec).
    rewrite Hitems in Hitems'. injection Hitems' as <-.
    destruct (bad_record_not_parsed _ _ _ _ Hrec Hin Hhas Hbad).
  - destruct (GraphitiBackend._parse_episodes_to_memories result st)
      as [[memories | e'] st'] eqn:Hrun; [| eauto].
    apply RelaySpec.parse_episodes_records in Hrun as (items' & Hitems' & Hrec).
    rewrite Hitems in Hitems'. injection Hitems' as <-.
    destruct (bad_record_not_parsed _ _ _ _ Hrec Hin Hhas Hbad).
Qed.

(** *** Missing and null collections *)

(** A result mapping without the key a parser reads gives the empty
    list and leaves the state as it was; the key bound to a JSON null
    makes the parser raise [TypeError]. *)
Theorem absent_or_null_collection result :
  (dict_has result "memories" = false ->
   forall st, ForgetfulBackend._parse_forgetful_memories (VDict result) st = (Ok [], st)) /\
  (dict_has result "nodes" = false ->
   forall st, GraphitiBackend._parse_nodes_to_memories (VDict result) st = (Ok [], st)) /\
  (dict_has result "facts" = false ->
   forall st, GraphitiBackend._parse_facts_to_relationships (VDict result) st = (Ok [], st)) /\
  (dict_has result "episodes" = false ->
   forall st, GraphitiBackend._parse_episodes_to_memories (VDict result) st = (Ok [], st)) /\
  (dict_get result "memories" (VList []) = VNone ->
   forall st, ForgetfulBackend._parse_forgetful_memories (VDict result) st =
              (Raise TypeError, st)) /\
  (dict_get result "nodes" (VList []) = VNone ->
   forall st, GraphitiBackend._parse_nodes_to_memories (VDict result) st =
              (Raise TypeError, st)) /\
  (dict_get result "facts" (VList []) = VNone ->
   forall st, GraphitiBackend._parse_facts_to_relationships (VDict result) st =
              (Raise TypeError, st)) /\
  (dict_get result "episodes" (VList []) = VNone ->
   forall st, GraphitiBackend._parse_episodes_to_memories (VDict result) st =
              (Raise TypeError, st)).
Proof.
  repeat split; intros Hkey st.
  - unfold ForgetfulBackend._parse_forgetful_memories, bind, lift. simpl.
    rewrite (dict_get_absent _ _ _ Hkey). reflexivity.
  - unfold GraphitiBackend._parse_nodes_to_memories, bind, lift. simpl.
    rewrite (dict_get_absent _ _ _ Hkey). reflexivity.
  - unfold GraphitiBackend._parse_facts_to_relationships, bind, lift. simpl.
    rewrite (dict_get_absent _ _ _ Hkey). reflexivity.
  - unfold GraphitiBackend._parse_episodes_to_memories, bind, lift. simpl.
    rewrite (dict_get_absent _ _ _ Hkey). reflexivity.
  - unfold ForgetfulBackend._parse_forgetful_memories, bind, lift. simpl.
    rewrite Hkey. reflexivity.
  - unfold GraphitiBackend._parse_nodes_to_memories, bind, lift. simpl.
    rewrite Hkey. reflexivity.
  - unfold GraphitiBackend._parse_facts_to_relationships, bind, lift. simpl.
    rewrite Hkey. reflexivity.
  - unfold GraphitiBackend._parse_episodes_to_memories, bind, lift. simpl.
    rewrite Hkey. reflexivity.
Qed.

(** *** Episodes and facts *)

Lemma parse_episode_fields item st m st' :
  GraphitiBackend.parse_episode item st = (Ok m, st') ->
  exists d, item = VDict d /\
    id m = dict_get d "uuid" (VStr EmptyString) /\
    content m = dict_get d "content" (dict_get d "name" (VStr EmptyString)) /\
    importance m = VNone /\
    dict_get (metadata m) "episode_type" VNone = VStr "episode".
Proof.
  unfold GraphitiBackend.parse_episode, bind, lift, GraphitiBackend.now, ret.
  destruct item as [| | | | | | d]; simpl; try discriminate.
  destruct (py_fromisoformat _) as [t | e]; [| discriminate].
  intros [= <- _]. exists d. repeat split; reflexivity.
Qed.

(** A memory made from an episode takes the episode's [content], or
    its [name] when it has no [content]; its id is the [uuid] as the
    service gave it, it has no importance, and it is marked as an
    episode. *)
Theorem episode_content_falls_back_to_name result st memories st' :
  GraphitiBackend._parse_episodes_to_memories result st = (Ok memories, st') ->
  exists items,
    items_of result "episodes" = Ok items /\
    Forall2 (fun item m =>
               exists d, item = VDict d /\
                 id m = dict_get d "uuid" (VStr EmptyString) /\
                 content m = dict_get d "content" (dict_get d "name" (VStr EmptyString)) /\
                 (dict_has d "content" = false ->
                  content m = dict_get d "name" (VStr EmptyString)) /\
                 importance m = VNone /\
                 dict_get (metadata m) "episode_type" VNone = VStr "episode")
            items memories.
Proof.
  unfold GraphitiBackend._parse_episodes_to_memories, items_of. intros Hrun.
  apply bind_inv in Hrun as (v & st1 & Hv & Hrun). apply lift_inv in Hv as [-> ->].
  apply bind_inv in Hrun as (items & st2 & Hitems & Hrun).
  apply lift_inv in Hitems as [Hitems ->].
  exists items. split; [exact Hitems |].
  eapply for_each_inv; [| exact Hrun].
  intros item s m s' Hitem.
  apply parse_episode_fields in Hitem as (d & -> & Hid & Hcontent & Himp & Htype).
  exists d. repeat split; try assumption.
  intros Habsent. rewrite Hcontent. apply dict_get_absent, Habsent.
Qed.

(** Facts are never rejected: a list of mappings gives one relationship
    per fact, in order, each field taken as it is or the empty string
    when absent; the [created_at] of a fact is kept unparsed, and the
    clock is not read. *)
Theorem facts_always_parse result ds st :
  dict_get result "facts" (VList []) = VList (map VDict ds) ->
  exists relationships,
    GraphitiBackend._parse_facts_to_relationships (VDict result) st =
      (Ok relationships, st) /\
    Forall2 (fun d r =>
               source r = dict_get d "source_node_uuid" (VStr EmptyString) /\
               target r = dict_get d "target_node_uuid" (VStr EmptyString) /\
               relation_type r = dict_get d "fact" (VStr EmptyString) /\
               rel_metadata r = [("created_at", dict_get d "created_at" (VStr EmptyString))])
            ds relationships.
Proof.
  intros Hfacts.
  unfold GraphitiBackend._parse_facts_to_relationships, bind at 1, lift at 1. simpl.
  rewrite Hfacts. unfold bind at 1, lift at 1. simpl.
  clear Hfacts. induction ds as [| d ds (rs & Hrun & Hall)]; simpl.
  - exists []. split; [reflexivity | constructor].
  - eexists. unfold bind at 1. unfold GraphitiBackend.parse_fact at 1.
    unfold bind, lift, ret in *. simpl. rewrite Hrun. split; [reflexivity |].
    constructor; [repeat split | exact Hall].
Qed.

End ParserSpec.
End ParserSpec.

(** ** More on the operations *)

Module OperationSpec.
Section OperationSpec.
Context {RT : PyRuntime}.
Context {FHost : ForgetfulHost} {GHost : GraphitiHost}.

(** *** Availability of the Graphiti tools *)

(** When [mcp__graphiti__get_status] is not bound, every operation of
    the Graphiti backend raises [RuntimeError] before any external
    call: the state is left as it was. *)
Theorem graphiti_unavailable st :
  graphiti_tool "get_status" = None ->
  exists msg,
    (forall text gid limit,
       GraphitiBackend.query text gid limit st = (Raise (RuntimeError msg), st)) /\
    (forall text gid limit,
       GraphitiBackend.search_facts text gid limit st = (Raise (RuntimeError msg), st)) /\
    (forall content_ gid kwargs,
       GraphitiBackend.save content_ gid kwargs st = (Raise (RuntimeError msg), st)) /\
    (forall gid limit,
       GraphitiBackend.list_recent gid limit st = (Raise (RuntimeError msg), st)) /\
    (forall start gid depth,
       GraphitiBackend.explore start gid depth st = (Raise (RuntimeError msg), st)).
Proof.
  intros Hunbound. exists GraphitiBackend.unavailable_message.
  assert (forall A (k : unit -> M GraphitiBackend.State A),
            bind GraphitiBackend._check_mcp_available k st =
            (Raise (RuntimeError GraphitiBackend.unavailable_message), st)) as Hcheck.
  { intros A k. unfold bind, GraphitiBackend._check_mcp_available.
    rewrite Hunbound. reflexivity. }
  repeat split; intros.
  - apply Hcheck.
  - apply Hcheck.
  - apply Hcheck.
  - apply Hcheck.
  - unfold GraphitiBackend.explore, bind at 1, GraphitiBackend.query.
    rewrite Hcheck. reflexivity.
Qed.

(** When the status tool is bound but the tool an operation calls is
    not, the operation raises [NameError], again with the state left as
    it was. *)
Theorem graphiti_tool_unbound st get_status :
  graphiti_tool "get_status" = Some get_status ->
  (forall text gid limit, graphiti_tool "search_nodes" = None ->
     GraphitiBackend.query text gid limit st =
     (Raise (NameError "mcp__graphiti__search_nodes"), st)) /\
  (forall text gid limit, graphiti_tool "search_memory_facts" = None ->
     GraphitiBackend.search_facts text gid limit st =
     (Raise (NameError "mcp__graphiti__search_memory_facts"), st)) /\
  (forall content_ gid kwargs, graphiti_tool "add_memory" = None ->
     GraphitiBackend.save content_ gid kwargs st =
     (Raise (NameError "mcp__graphiti__add_memory"), st)) /\
  (forall gid limit, graphiti_tool "get_episodes" = None ->
     GraphitiBackend.list_recent gid limit st =
     (Raise (NameError "mcp__graphiti__get_episodes"), st)).
Proof.
  intros Hstatus. repeat split; intros.
  - unfold GraphitiBackend.query, bind, GraphitiBackend._check_mcp_available,
      GraphitiBackend.invoke, ret.
    rewrite Hstatus. simpl. rewrite H. reflexivity.
  - unfold GraphitiBackend.search_facts, bind, GraphitiBackend._check_mcp_available,
      GraphitiBackend.invoke, ret.
    rewrite Hstatus. simpl. rewrite H. reflexivity.
  - unfold GraphitiBackend.save, bind, GraphitiBackend._check_mcp_available,
      GraphitiBackend.invoke, ret.
    rewrite Hstatus. simpl. rewrite H. reflexivity.
  - unfold GraphitiBackend.list_recent, bind, GraphitiBackend._check_mcp_available,
      GraphitiBackend.invoke, ret.
    rewrite Hstatus. simpl. rewrite H. reflexivity.
Qed.

(** *** Discovery *)

Lemma lookup_op_present ops operation spec :
  GraphitiBackend.lookup_op ops operation = Some spec -> In operation (map fst ops).
Proof.
  induction ops as [| [k s] ops IH]; simpl; [discriminate |].
  destruct (String.eqb k operation) eqn:Heq; [| auto].
  apply String.eqb_eq in Heq. auto.
Qed.

(** The discovery operations of the Graphiti backend agree: every
    operation [get_capabilities] lists has a schema with the same
    description and parameters and has its example as only example, and
    [get_schema] and [get_examples] accept the listed names and no
    other. *)
Theorem graphiti_discovery_consistent :
  (forall info, In info GraphitiBackend.get_capabilities ->
     GraphitiBackend.get_schema (name info) =
       Ok (VDict [("description", VStr (description info));
                  ("params", GraphitiBackend.params_dict (params info))]) /\
     GraphitiBackend.get_examples (name info) = Ok [example info]) /\
  (forall operation,
     (exists schema, GraphitiBackend.get_schema operation = Ok schema) <->
     In operation (map name GraphitiBackend.get_capabilities)) /\
  (forall operation,
     (exists examples, GraphitiBackend.get_examples operation = Ok examples) <->
     In operation (map name GraphitiBackend.get_capabilities)).
Proof.
  assert (map name GraphitiBackend.get_capabilities = map fst GraphitiBackend.OPERATIONS)
    as Hnames by reflexivity.
  split; [| split].
  - intros info Hin. simpl in Hin.
    destruct Hin as [<- | [<- | [<- | [<- | [<- | []]]]]]; split; reflexivity.
  - intros operation. rewrite Hnames. unfold GraphitiBackend.get_schema. split.
    + intros [schema Hschema].
      destruct (GraphitiBackend.lookup_op _ operation) as [spec |] eqn:Hlookup;
        [| discriminate].
      eapply lookup_op_present, Hlookup.
    + intros Hin.
      destruct (GraphitiBackend.lookup_op _ operation) as [spec |] eqn:Hlookup; [eauto |].
      exfalso. simpl in Hin.
      destruct Hin as [<- | [<- | [<- | [<- | [<- | []]]]]]; discriminate.
  - intros operation. rewrite Hnames. unfold GraphitiBackend.get_examples. split.
    + intros [examples Hexamples].
      destruct (GraphitiBackend.lookup_op _ operation) as [spec |] eqn:Hlookup;
        [| discriminate].
      eapply lookup_op_present, Hlookup.
    + intros Hin.
      destruct (GraphitiBackend.lookup_op _ operation) as [spec |] eqn:Hlookup; [eauto |].
      exfalso. simpl in Hin.
      destruct Hin as [<- | [<- | [<- | [<- | [<- | []]]]]]; discriminate.
Qed.

(** [ForgetfulBackend.get_capabilities] asks the service for its tools
    and does not look at the answer: it returns the same three
    operations whatever was discovered, and raises what the discovery
    raises. *)
Theorem forgetful_capabilities_static st :
  (forall tools w,
     discover_forgetful_tools (ForgetfulBackend.world st) = (Ok tools, w) ->
     exists st',
       ForgetfulBackend.get_capabilities st = (Ok ForgetfulBackend.capabilities, st') /\
       ForgetfulBackend.world st' = w /\
       ForgetfulBackend._project_cache st' = ForgetfulBackend._project_cache st) /\
  (forall e w,
     discover_forgetful_tools (ForgetfulBackend.world st) = (Raise e, w) ->
     exists st', ForgetfulBackend.get_capabilities st = (Raise e, st')) /\
  map name ForgetfulBackend.capabilities = ["query"; "save"; "list_recent"].
Proof.
  split; [| split; [| reflexivity]].
  - intros tools w Hdiscover. unfold ForgetfulBackend.get_capabilities.
    rewrite Hdiscover. eexists. split; [reflexivity |]. split; reflexivity.
  - intros e w Hdiscover. unfold ForgetfulBackend.get_capabilities.
    rewrite Hdiscover. eexists. reflexivity.
Qed.

(** *** save *)

(** [save] forwards five metadata keys on the Forgetful backend and
    three on the Graphiti backend; every other key of the metadata is
    ignored: two calls that differ in other keys only behave alike. *)
Theorem save_ignores_other_metadata content_ gid kwargs1 kwargs2 :
  (agree_on ["title"; "importance"; "keywords"; "tags"; "context"] kwargs1 kwargs2 ->
   forall st, ForgetfulBackend.save content_ gid kwargs1 st =
              ForgetfulBackend.save content_ gid kwargs2 st) /\
  (agree_on ["title"; "source"; "source_description"] kwargs1 kwargs2 ->
   forall st, GraphitiBackend.save content_ gid kwargs1 st =
              GraphitiBackend.save content_ gid kwargs2 st).
Proof.
  split; intros Hagree st.
  - assert (forall pid, ForgetfulBackend.create_memory_args content_ kwargs1 pid =
                        ForgetfulBackend.create_memory_args content_ kwargs2 pid) as Hargs.
    { intros pid. unfold ForgetfulBackend.create_memory_args.
      rewrite !(Hagree "title"), !(Hagree "importance"), !(Hagree "keywords"),
        !(Hagree "tags"), !(Hagree "context") by (simpl; tauto).
      reflexivity. }
    unfold ForgetfulBackend.save.
    destruct (ForgetfulBackend._group_to_project_id gid st) as [[pid | e] st1] eqn:Hpid.
    + rewrite !(bind_ok _ _ _ _ _ Hpid), Hargs. reflexivity.
    + rewrite !(bind_raise _ _ _ _ _ Hpid). reflexivity.
  - assert (GraphitiBackend.add_memory_args content_ gid kwargs1 =
            GraphitiBackend.add_memory_args content_ gid kwargs2) as Hargs.
    { unfold GraphitiBackend.add_memory_args.
      rewrite !(Hagree "title"), !(Hagree "source"), !(Hagree "source_description")
        by (simpl; tauto).
      reflexivity. }
    unfold GraphitiBackend.save. rewrite Hargs. reflexivity.
Qed.

(** The identifier [save] returns: on the Forgetful backend the [str]
    of the answer's [memory_id], or of its [id] when there is no
    [memory_id]; on the Graphiti backend the answer's [episode_id], or
    its [uuid] when there is no [episode_id], as the service gave it
    (not converted to a string). *)
Theorem save_returns_first_id_key :
  (forall content_ gid kwargs st pid st1 answer w,
     ForgetfulBackend._group_to_project_id gid st = (Ok pid, st1) ->
     execute_forgetful_tool "create_memory"
       (VDict (ForgetfulBackend.create_memory_args content_ kwargs pid))
       (ForgetfulBackend.world st1) = (Ok (VDict answer), w) ->
     exists r st',
       ForgetfulBackend.save content_ gid kwargs st = (Ok r, st') /\
       (dict_has answer "memory_id" = true ->
        r = py_str (dict_get answer "memory_id" VNone)) /\
       (dict_has answer "memory_id" = false -> dict_has answer "id" = true ->
        r = py_str (dict_get answer "id" VNone))) /\
  (forall content_ gid kwargs st get_status add_memory answer w,
     graphiti_tool "get_status" = Some get_status ->
     graphiti_tool "add_memory" = Some add_memory ->
     add_memory (VDict (GraphitiBackend.add_memory_args content_ gid kwargs))
       (GraphitiBackend.world st) = (Ok (VDict answer), w) ->
     exists r st',
       GraphitiBackend.save content_ gid kwargs st = (Ok r, st') /\
       (dict_has answer "episode_id" = true ->
        r = dict_get answer "episode_id" VNone) /\
       (dict_has answer "episode_id" = false -> dict_has answer "uuid" = true ->
        r = dict_get answer "uuid" VNone)).
Proof.
  split.
  - intros content_ gid kwargs st pid st1 answer w Hpid Hcall.
    unfold ForgetfulBackend.save. rewrite (bind_ok _ _ _ _ _ Hpid).
    unfold bind, ForgetfulBackend.invoke, lift, ret. rewrite Hcall. simpl.
    eexists _, _. split; [reflexivity |]. split.
    + intros Hhas. f_equal. apply RelaySpec.dict_get_present, Hhas.
    + intros Habsent Hhas. rewrite (dict_get_absent _ _ _ Habsent).
      f_equal. apply RelaySpec.dict_get_present, Hhas.
  - intros content_ gid kwargs st get_status add_memory answer w Hstatus Hadd Hcall.
    unfold GraphitiBackend.save, GraphitiBackend._check_mcp_available,
      bind, GraphitiBackend.invoke, lift, ret.
    rewrite Hstatus, Hadd, Hcall. simpl.
    eexists _, _. split; [reflexivity |]. split.
    + intros Hhas. apply RelaySpec.dict_get_present, Hhas.
    + intros Habsent Hhas. rewrite (dict_get_absent _ _ _ Habsent).
      apply RelaySpec.dict_get_present, Hhas.
Qed.

(** When the service answers the save call with something that is not
    a mapping, [save] raises [AttributeError] after the call was made:
    the service has already been changed by it. *)
Theorem save_answer_not_a_mapping :
  (forall content_ gid kwargs st pid st1 answer w,
     ForgetfulBackend._group_to_project_id gid st = (Ok pid, st1) ->
     execute_forgetful_tool "create_memory"
       (VDict (ForgetfulBackend.create_memory_args content_ kwargs pid))
       (ForgetfulBackend.world st1) = (Ok answer, w) ->
     (forall d, answer <> VDict d) ->
     exists st',
       ForgetfulBackend.save content_ gid kwargs st = (Raise AttributeError, st') /\
       ForgetfulBackend.world st' = w /\
       ForgetfulBackend.calls st' =
         ForgetfulBackend.calls st1 ++
         [("create_memory",
           VDict (ForgetfulBackend.create_memory_args content_ kwargs pid))]) /\
  (forall content_ gid kwargs st get_status add_memory answer w,
     graphiti_tool "get_status" = Some get_status ->
     graphiti_tool "add_memory" = Some add_memory ->
     add_memory (VDict (GraphitiBackend.add_memory_args content_ gid kwargs))
       (GraphitiBackend.world st) = (Ok answer, w) ->
     (forall d, answer <> VDict d) ->
     exists st',
       GraphitiBackend.save content_ gid kwargs st = (Raise AttributeError, st') /\
       GraphitiBackend.world st' = w /\
       GraphitiBackend.calls st' =
         GraphitiBackend.calls st ++
         [("add_memory", VDict (GraphitiBackend.add_memory_args content_ gid kwargs))]).
Proof.
  split.
  - intros content_ gid kwargs st pid st1 answer w Hpid Hcall Hnot.
    unfold ForgetfulBackend.save. rewrite (bind_ok _ _ _ _ _ Hpid).
    unfold bind, ForgetfulBackend.invoke, lift, ret. rewrite Hcall.
    destruct answer; try (eexists; split; [reflexivity | split; reflexivity]).
    destruct (Hnot entries eq_refl).
  - intros content_ gid kwargs st get_status add_memory answer w Hstatus Hadd Hcall Hnot.
    unfold GraphitiBackend.save, GraphitiBackend._check_mcp_available,
      bind, GraphitiBackend.invoke, lift, ret.
    rewrite Hstatus, Hadd, Hcall.
    destruct answer; try (eexists; split; [reflexivity | split; reflexivity]).
    destruct (Hnot entries eq_refl).
Qed.

End OperationSpec.
End OperationSpec.

(** ** Further runs on the fixtures *)

Module FixtureRuns.
Import Fixtures MoreFixtures ForgetfulBackend.

Lemma explore_ids_distinct_witness :
  match explore (RT := epoch_runtime) (Host := lookup_host cyclic_graph)
          4 "A" "ns" 2 (init (Host := lookup_host cyclic_graph) tt) with
  | Some (Ok g, _) => NoDup (map id (nodes g))
  | _ => False
  end.
Proof.
  exact (TraversalSpec.explore_ids_distinct (RT := epoch_runtime)
           (Host := lookup_host cyclic_graph) 4 "A" "ns" 2
           (init (Host := lookup_host cyclic_graph) tt) _ _ eq_refl).
Defined.

Lemma explore_edges_of_nodes_witness :
  exists g st',
    explore (RT := epoch_runtime) (Host := lookup_host tree_graph)
      5 "root" "ns" 2 (init (Host := lookup_host tree_graph) tt) = Some (Ok g, st') /\
    facts_of (nodes g) = Ok (edges g) /\
    length (edges g) = 3%nat.
Proof.
  eexists _, _. split; [vm_compute; reflexivity |].
  split; [| reflexivity].
  eapply (TraversalSpec.explore_edges_of_nodes (RT := epoch_runtime)
            (Host := lookup_host tree_graph) 5 "root" "ns" 2
            (init (Host := lookup_host tree_graph) tt)).
  vm_compute. reflexivity.
Defined.

Lemma explore_negative_depth_witness :
  explore (RT := epoch_runtime) (Host := lookup_host tree_graph)
    1 "root" "ns" (-1) (init (Host := lookup_host tree_graph) tt) =
  Some (Ok {| nodes := []; edges := [] |}, init (Host := lookup_host tree_graph) tt).
Proof.
  apply (TraversalSpec.explore_negative_depth (RT := epoch_runtime)
           (Host := lookup_host tree_graph) "root" "ns" (-1)
           (init (Host := lookup_host tree_graph) tt) 0%nat).
  lia.
Defined.

Lemma links_not_iterable_witness :
  let host := store_host [null_links_record] in
  let st := init (Host := host) [] in
  explore (RT := epoch_runtime) 1 "m" "ns" 3 st =
    Some (Raise TypeError, snd (query (RT := epoch_runtime) "m" "ns" 5 st)) /\
  search_facts (RT := epoch_runtime) "m" "ns" 5 st =
    (Raise TypeError, snd (query (RT := epoch_runtime) "m" "ns" 5 st)).
Proof.
  intros host st.
  eapply (TraversalSpec.links_not_iterable (RT := epoch_runtime) (Host := host)
            "m" "ns" 3 st) with (extra := 0%nat);
    [lia | reflexivity | reflexivity].
Defined.

Lemma explore_depth_zero_search_facts_witness :
  let host := store_host linked_store in
  let st := init (Host := host) [] in
  exists memories st1 relationships,
    query (RT := epoch_runtime) "m" "ns" 5 st = (Ok memories, st1) /\
    search_facts (RT := epoch_runtime) "m" "ns" 5 st = (Ok relationships, st1) /\
    explore (RT := epoch_runtime) 2 "m" "ns" 0 st =
      Some (Ok {| nodes := memories; edges := relationships |}, st1) /\
    length relationships = 2%nat.
Proof.
  intros host st.
  destruct (TraversalSpec.explore_depth_zero_search_facts (RT := epoch_runtime)
              (Host := host) "m" "ns" st _ _ 0%nat eq_refl) as [Hfacts Hexplore].
  - simpl.
    repeat (apply NoDup_cons; split;
            [rewrite list_elem_of_In; simpl; intuition discriminate |]).
    apply NoDup_nil. exact I.
  - eexists _, _, _. split; [reflexivity |].
    split; [exact Hfacts |]. split; [exact Hexplore | reflexivity].
Defined.

Lemma resolve_existing_project_witness :
  let host := store_host [] in
  let st := init (Host := host) ["other"; "ns"] in
  exists st1,
    _group_to_project_id "ns" st = (Ok (VInt 2), st1) /\
    calls st1 = [("list_projects", VDict [])].
Proof.
  intros host st.
  destruct (ResolutionSpec.resolve_existing_project (Host := host) "ns" st
              (VDict [("projects", VList (project_rows 1 ["other"; "ns"]))])
              ["other"; "ns"]
              [VDict [("id", VInt 1); ("name", VStr "other")]]
              [("id", VInt 2); ("name", VStr "ns")] [])
    as (st1 & Hresolve & _ & _ & Hcalls).
  - reflexivity.
  - reflexivity.
  - reflexivity.
  - constructor; [| constructor]. eexists. split; [reflexivity | discriminate].
  - reflexivity.
  - exists st1. split; [exact Hresolve | exact Hcalls].
Defined.

Lemma resolve_created_project_witness :
  let host := store_host [] in
  let st := init (Host := host) ["other"] in
  exists st1,
    _group_to_project_id "ns" st = (Ok (VInt 2), st1) /\
    _group_to_project_id "ns" st1 = (Ok (VInt 2), st1).
Proof.
  intros host st.
  destruct (ResolutionSpec.resolve_created_project (Host := host) "ns" st
              (VDict [("projects", VList (project_rows 1 ["other"]))])
              ["other"]
              [VDict [("id", VInt 1); ("name", VStr "other")]]
              [("project_id", VInt 2)] ["other"; "ns"])
    as (st1 & Hresolve & _ & Hagain & _).
  - reflexivity.
  - reflexivity.
  - reflexivity.
  - constructor; [| constructor]. eexists. split; [reflexivity | discriminate].
  - reflexivity.
  - exists st1. split; [exact Hresolve | exact Hagain].
Defined.

Lemma resolve_cache_frame_witness :
  let host := store_host [] in
  let st := init (Host := host) [] in
  _project_cache (snd (_group_to_project_id "ns" st)) !! "ns" = Some (VInt 1) /\
  _project_cache (snd (_group_to_project_id "ns" st)) !! "other" = None.
Proof.
  intros host st.
  destruct (ResolutionSpec.resolve_cache_frame (Host := host) "ns" st
              (fst (_group_to_project_id "ns" st))
              (snd (_group_to_project_id "ns" st)) eq_refl)
    as (Hother & Hcached & _).
  split.
  - apply Hcached. reflexivity.
  - rewrite (Hother "other"); [reflexivity | discriminate].
Defined.

Lemma falsy_project_id_not_sent_witness :
  let host := store_host [] in
  let st := {| _project_cache := {["ns" := VInt 0]}; world := ([] : @World host);
               ticks := 0%nat; calls := [] |} in
  exists r st',
    query (RT := epoch_runtime) "jwt" "ns" 5 st = (r, st') /\
    calls st' =
      [("query_memory",
        VDict [("query", VStr "jwt"); ("project_ids", VNone);
               ("k", VInt 5); ("include_links", VBool true)])].
Proof.
  intros host st.
  destruct (ResolutionSpec.falsy_project_id_not_sent (RT := epoch_runtime)
              (Host := host) "ns" (VInt 0) st) as (Hquery & _).
  - reflexivity.
  - reflexivity.
  - exact (Hquery "jwt" 5).
Defined.

Lemma forgetful_ids_are_strings_witness :
  let host := store_host [] in
  match _parse_forgetful_memories (RT := epoch_runtime) (Host := host)
          (VDict [("memories", VList [VDict [("id", VInt 42)]; VDict []])])
          (init (Host := host) []) with
  | (Ok memories, _) => Forall (fun m => exists s, id m = VStr s) memories
  | _ => False
  end.
Proof.
  intros host.
  destruct (ParserSpec.forgetful_ids_are_strings (RT := epoch_runtime) (FHost := host)
              (VDict [("memories", VList [VDict [("id", VInt 42)]; VDict []])])
              (init (Host := host) []) _ _ eq_refl) as (items & _ & _ & Hids).
  exact Hids.
Defined.

Lemma created_at_round_trip_witness :
  exists m st',
    parse_memory (RT := epoch_runtime) (Host := store_host [])
      (VDict [("id", VStr "m"); ("created_at", VStr "12")])
      (init (Host := store_host []) []) = (Ok m, st') /\
    created_at m = 12%nat.
Proof.
  destruct (ParserSpec.created_at_round_trip (RT := epoch_runtime)
              (FHost := store_host []) (GHost := graphiti_stub [] [] [])
              (Laws := FixtureFacts.epoch_runtime_laws)
              [("id", VStr "m"); ("created_at", VStr "12")] 12%nat eq_refl)
    as (Hforgetful & _).
  exact (Hforgetful (init (Host := store_host []) [])).
Defined.

Lemma bad_created_at_loses_result_witness :
  exists e st',
    _parse_forgetful_memories (RT := epoch_runtime) (Host := store_host [])
      (VDict [("memories", VList [record "ok" "7" []; null_created_at_record])])
      (init (Host := store_host []) []) = (Raise e, st').
Proof.
  destruct (ParserSpec.bad_created_at_loses_result (RT := epoch_runtime)
              (FHost := store_host []) (GHost := graphiti_stub [] [] [])
              (VDict [("memories", VList [record "ok" "7" []; null_created_at_record])])
              [record "ok" "7" []; null_created_at_record]
              [("id", VStr "m"); ("created_at", VNone)] TypeError)
    as (Hforgetful & _).
  - simpl. auto.
  - reflexivity.
  - reflexivity.
  - exact (Hforgetful eq_refl (init (Host := store_host []) [])).
Defined.

Lemma episode_content_falls_back_to_name_witness :
  let host := graphiti_stub [] [] two_episodes in
  match GraphitiBackend._parse_episodes_to_memories (RT := epoch_runtime) (Host := host)
          (VDict [("episodes", VList two_episodes)])
          (GraphitiBackend.start (Host := host) tt) with
  | (Ok memories, _) => map content memories = [VStr "body"; VStr "second"]
  | _ => False
  end.
Proof.
  intros host.
  destruct (ParserSpec.episode_content_falls_back_to_name (RT := epoch_runtime)
              (GHost := host) (VDict [("episodes", VList two_episodes)])
              (GraphitiBackend.start (Host := host) tt) _ _ eq_refl)
    as (items & _ & _).
  reflexivity.
Defined.

Lemma facts_always_parse_witness :
  let host := graphiti_stub [] (map VDict two_facts) [] in
  exists relationships,
    GraphitiBackend._parse_facts_to_relationships (Host := host)
      (VDict [("facts", VList (map VDict two_facts))])
      (GraphitiBackend.start (Host := host) tt) =
      (Ok relationships, GraphitiBackend.start (Host := host) tt) /\
    length relationships = 2%nat.
Proof.
  intros host.
  destruct (ParserSpec.facts_always_parse (GHost := host)
              [("facts", VList (map VDict two_facts))] two_facts
              (GraphitiBackend.start (Host := host) tt) eq_refl)
    as (relationships & Hrun & Hall).
  exists relationships. split; [exact Hrun |].
  apply Forall2_length in Hall. rewrite <- Hall. reflexivity.
Defined.

Lemma graphiti_unavailable_witness :
  let host := graphiti_partial [] VNone in
  exists msg,
    GraphitiBackend.query (RT := epoch_runtime) (Host := host) "jwt" "ns" 5
      (GraphitiBackend.start (Host := host) tt) =
    (Raise (RuntimeError msg), GraphitiBackend.start (Host := host) tt).
Proof.
  intros host.
  destruct (OperationSpec.graphiti_unavailable (RT := epoch_runtime) (GHost := host)
              (GraphitiBackend.start (Host := host) tt) eq_refl)
    as (msg & Hquery & _).
  exists msg. apply Hquery.
Defined.

Lemma graphiti_tool_unbound_witness :
  let host := graphiti_partial ["get_status"] (VDict []) in
  GraphitiBackend.list_recent (RT := epoch_runtime) (Host := host) "ns" 5
    (GraphitiBackend.start (Host := host) tt) =
  (Raise (NameError "mcp__graphiti__get_episodes"),
   GraphitiBackend.start (Host := host) tt).
Proof.
  intros host.
  destruct (OperationSpec.graphiti_tool_unbound (RT := epoch_runtime) (GHost := host)
              (GraphitiBackend.start (Host := host) tt) (fun _ w => (Ok (VDict []), w))
              eq_refl)
    as (_ & _ & _ & Hlist).
  apply Hlist. reflexivity.
Defined.

Lemma save_returns_first_id_key_witness :
  let host := save_host (VDict [("id", VInt 3); ("memory_id", VInt 17)]) in
  exists st',
    save (RT := epoch_runtime) (Host := host) "Decision: JWT auth" "ns" []
      (init (Host := host) tt) = (Ok "17", st').
Proof.
  intros host.
  destruct (proj1 (OperationSpec.save_returns_first_id_key (RT := epoch_runtime)
                     (FHost := host) (GHost := graphiti_stub [] [] []))
              "Decision: JWT auth" "ns" [] (init (Host := host) tt)
              _ _ [("id", VInt 3); ("memory_id", VInt 17)] tt eq_refl eq_refl)
    as (r & st' & Hsave & Hfirst & _).
  exists st'. rewrite Hsave, (Hfirst eq_refl). reflexivity.
Defined.

Lemma save_answer_not_a_mapping_witness :
  let host := save_host (VStr "created") in
  exists st',
    save (RT := epoch_runtime) (Host := host) "Decision: JWT auth" "ns" []
      (init (Host := host) tt) = (Raise AttributeError, st') /\
    count_calls "create_memory" (calls st') = 1%nat.
Proof.
  intros host.
  destruct (proj1 (OperationSpec.save_answer_not_a_mapping (RT := epoch_runtime)
                     (FHost := host) (GHost := graphiti_stub [] [] []))
              "Decision: JWT auth" "ns" [] (init (Host := host) tt)
              _ _ (VStr "created") tt eq_refl eq_refl)
    as (st' & Hsave & _ & Hcalls).
  - discriminate.
  - exists st'. split; [exact Hsave |]. rewrite Hcalls. reflexivity.
Defined.

Lemma save_ignores_other_metadata_witness :
  save (RT := epoch_runtime) (Host := store_host []) "Decision: JWT auth" "ns"
    [("title", VStr "Auth"); ("source", VStr "cli")] (init (Host := store_host []) []) =
  save (RT := epoch_runtime) (Host := store_host []) "Decision: JWT auth" "ns"
    [("title", VStr "Auth")] (init (Host := store_host []) []).
Proof.
  apply (proj1 (OperationSpec.save_ignores_other_metadata (RT := epoch_runtime)
                  (FHost := store_host []) (GHost := graphiti_stub [] [] [])
                  "Decision: JWT auth" "ns"
                  [("title", VStr "Auth"); ("source", VStr "cli")]
                  [("title", VStr "Auth")])).
  intros key default [<- | [<- | [<- | [<- | [<- | []]]]]]; reflexivity.
Defined.


End FixtureRuns.
